(** * hvpy.helpers: [createMovie]

    A shallow embedding of [src/hvpy/helpers.py].  [createMovie] queues a
    movie with [queueMovie], polls [getMovieStatus] in a [while True] loop
    bounded by a wall-clock deadline, downloads the result with
    [downloadMovie] and stores it with [save_file].

    The collaborators ([hvpy.facade], [hvpy.utils], [time]) are not part of
    the file: they are modelled as a [World] of oracles that answer each
    call from the history of the run so far.  A run produces an outcome and
    the list of collaborator calls it made, in order.  The decorator
    [_add_shared_docstring] only fills in the docstring and is left out. *)

From stdpp Require Import gmap strings list fin_maps pretty.

Local Open Scope string_scope.
Local Open Scope list_scope.

(** ** Python values *)

(** The scalars a decoded JSON response field holds here: [None], [bool],
    [int] and [str].  (Responses with float, list or object fields are
    outside the model.) *)
Inductive scalar :=
| SNone
| SBool (b : bool)
| SInt (n : Z)
| SStr (s : string).

(** Python's [==] on these scalars; [bool] is a subtype of [int], so
    [True == 1] and [False == 0]. *)
Definition py_eq (x y : scalar) : bool :=
  match x, y with
  | SNone, SNone => true
  | SBool a, SBool b => Bool.eqb a b
  | SBool a, SInt n | SInt n, SBool a => (Z.b2z a =? n)%Z
  | SInt m, SInt n => (m =? n)%Z
  | SStr s, SStr t => bool_decide (s = t)
  | _, _ => false
  end.

(** [x in xs] for a list literal. *)
Definition py_in (x : scalar) (xs : list scalar) : bool := existsb (py_eq x) xs.

(** Truth value, as tested by [if]. *)
Definition truthy (x : scalar) : bool :=
  match x with
  | SNone => false
  | SBool b => b
  | SInt n => negb (n =? 0)%Z
  | SStr s => negb (bool_decide (s = EmptyString))
  end.

(** [str(x)], which is what an f-string field without a format spec
    renders. *)
Definition py_str (x : scalar) : string :=
  match x with
  | SNone => "None"
  | SBool true => "True"
  | SBool false => "False"
  | SInt n => pretty n
  | SStr s => s
  end.

(** [d.get(k)]: [None] when the key is missing. *)
Definition dict_get (d : gmap string scalar) (k : string) : scalar :=
  default SNone (d !! k).

(** ** Dates *)

Record date := { d_year : nat; d_month : nat; d_day : nat }.

Record datetime := {
  year : nat; month : nat; day : nat;
  hour : nat; minute : nat; second : nat; microsecond : nat }.

(** [datetime.date()] *)
Definition datetime_date (t : datetime) : date :=
  {| d_year := year t; d_month := month t; d_day := day t |}.

Fixpoint zeros (n : nat) : string :=
  match n with O => EmptyString | S k => "0" +:+ zeros k end.

(** [s.zfill(w)] for a string of digits. *)
Definition zfill (w : nat) (s : string) : string :=
  zeros (w - String.length s) +:+ s.

(** [str(date)], the ISO form [%04d-%02d-%02d]. *)
Definition date_str (d : date) : string :=
  zfill 4 (pretty (d_year d)) +:+ "-" +:+ zfill 2 (pretty (d_month d))
    +:+ "-" +:+ zfill 2 (pretty (d_day d)).

(** ** Paths *)

(** A [pathlib.Path], represented by the string it was built from
    (pathlib's normalisation of separators is not modelled). *)
Record Path := mkPath { path_str : string }.

(** [Union[str, Path]] *)
Inductive path_like :=
| PStr (s : string)
| PPath (p : Path).

Definition path_like_str (f : path_like) : string :=
  match f with PStr s => s | PPath p => path_str p end.

(** ** Numbers *)

(** The arithmetic [createMovie] does on [timeout] and on the readings of
    [time.time()]: [+], [*] by the literal [60], [>] and rendering in an
    f-string.  Python floats are kept abstract behind this interface. *)
Class Number (F : Type) := {
  num_of_Z : Z → F;
  num_add : F → F → F;
  num_mul : F → F → F;
  num_gtb : F → F → bool;
  num_str : F → string }.

(** Whole numbers, used for concrete runs. *)
#[export] Instance Z_Number : Number Z := {|
  num_of_Z := id;
  num_add := Z.add;
  num_mul := Z.mul;
  num_gtb := Z.gtb;
  num_str := pretty |}.

(** ** Exceptions *)

Inductive exn :=
| RuntimeError (arg : scalar)
| KeyError (key : string)
| OtherError (name : string) (msg : string).

(** What a collaborator call does: return a value or raise. *)
Inductive reply (A : Type) :=
| Reply (a : A)
| Throws (e : exn).
Arguments Reply {A} a.
Arguments Throws {A} e.

(** How a run of a computation ends: it returns, it raises, or the
    iterations it was followed for are used up and the loop is still
    going. *)
Inductive outcome (A : Type) :=
| Returned (a : A)
| Raised (e : exn)
| OutOfFuel.
Arguments Returned {A} a.
Arguments Raised {A} e.
Arguments OutOfFuel {A}.

(** What the loop body tells the loop. *)
Inductive ctl := Continue | Break.

Section Helpers.
Context {F : Type} `{Number F}.

(** Values passed as keyword arguments. *)
Inductive value :=
| VScalar (s : scalar)
| VNum (x : F)
| VDatetime (t : datetime)
| VPath (p : Path)
| VBytes (b : list Byte.byte).

Definition vstr (s : string) : value := VScalar (SStr s).
Definition vbool (b : bool) : value := VScalar (SBool b).
Definition vint (n : Z) : value := VScalar (SInt n).
Definition vnone : value := VScalar SNone.

(** [Optional[T]]: [None] or the value. *)
Definition vopt {A} (f : A → value) (o : option A) : value :=
  match o with None => vnone | Some x => f x end.

Definition vpath_like (f : path_like) : value :=
  match f with PStr s => vstr s | PPath p => VPath p end.

(** The parameters of [createMovie], typed by their annotations. *)
Record Args := {
  startTime : datetime;
  endTime : datetime;
  layers : string;
  events : string;
  eventsLabels : bool;
  imageScale : F;
  format : string;
  frameRate : string;
  maxFrames : option string;
  scale : option bool;
  scaleType : option string;
  scaleX : option F;
  scaleY : option F;
  movieLength : option F;
  watermark : bool;
  width : option string;
  height : option string;
  x0 : option string;
  y0 : option string;
  x1 : option string;
  y1 : option string;
  x2 : option string;
  y2 : option string;
  size : Z;
  movieIcons : option Z;
  followViewport : option Z;
  reqObservationDate : option datetime;
  overwrite : bool;
  filename : option path_like;
  hq : bool;
  timeout : F }.

(** [locals()] on entry: one binding per parameter. *)
Definition locals (a : Args) : gmap string value :=
  <["startTime" := VDatetime (startTime a)]> (
  <["endTime" := VDatetime (endTime a)]> (
  <["layers" := vstr (layers a)]> (
  <["events" := vstr (events a)]> (
  <["eventsLabels" := vbool (eventsLabels a)]> (
  <["imageScale" := VNum (imageScale a)]> (
  <["format" := vstr (format a)]> (
  <["frameRate" := vstr (frameRate a)]> (
  <["maxFrames" := vopt vstr (maxFrames a)]> (
  <["scale" := vopt vbool (scale a)]> (
  <["scaleType" := vopt vstr (scaleType a)]> (
  <["scaleX" := vopt VNum (scaleX a)]> (
  <["scaleY" := vopt VNum (scaleY a)]> (
  <["movieLength" := vopt VNum (movieLength a)]> (
  <["watermark" := vbool (watermark a)]> (
  <["width" := vopt vstr (width a)]> (
  <["height" := vopt vstr (height a)]> (
  <["x0" := vopt vstr (x0 a)]> (
  <["y0" := vopt vstr (y0 a)]> (
  <["x1" := vopt vstr (x1 a)]> (
  <["y1" := vopt vstr (y1 a)]> (
  <["x2" := vopt vstr (x2 a)]> (
  <["y2" := vopt vstr (y2 a)]> (
  <["size" := vint (size a)]> (
  <["movieIcons" := vopt vint (movieIcons a)]> (
  <["followViewport" := vopt vint (followViewport a)]> (
  <["reqObservationDate" := vopt VDatetime (reqObservationDate a)]> (
  <["overwrite" := vbool (overwrite a)]> (
  <["filename" := vopt vpath_like (filename a)]> (
  <["hq" := vbool (hq a)]> (
  <["timeout" := VNum (timeout a)]> ∅)))))))))))))))))))))))))))))).

(** [input_params] after the four [pop]s (lines 87-93): what is passed to
    [queueMovie] as its keyword arguments. *)
Definition input_params (a : Args) : gmap string value :=
  delete "timeout" (delete "hq" (delete "filename" (delete "overwrite" (locals a)))).

(** The same call with other values for the four policy parameters. *)
Definition with_policy (a : Args) (overwrite' : bool) (filename' : option path_like)
    (hq' : bool) (timeout' : F) : Args := {|
  startTime := startTime a; endTime := endTime a; layers := layers a;
  events := events a; eventsLabels := eventsLabels a; imageScale := imageScale a;
  format := format a; frameRate := frameRate a; maxFrames := maxFrames a;
  scale := scale a; scaleType := scaleType a; scaleX := scaleX a;
  scaleY := scaleY a; movieLength := movieLength a; watermark := watermark a;
  width := width a; height := height a;
  x0 := x0 a; y0 := y0 a; x1 := x1 a; y1 := y1 a; x2 := x2 a; y2 := y2 a;
  size := size a; movieIcons := movieIcons a; followViewport := followViewport a;
  reqObservationDate := reqObservationDate a;
  overwrite := overwrite'; filename := filename'; hq := hq'; timeout := timeout' |}.

(** ** Collaborators and runs *)

(** One interaction with a collaborator: the call with its keyword
    arguments and what came back. *)
Inductive event :=
| EvQueueMovie (kwargs : gmap string value) (r : reply (gmap string scalar))
| EvGetMovieStatus (kwargs : gmap string value) (r : reply (gmap string scalar))
| EvTime (t : F)
| EvSleep (secs : Z)
| EvDownloadMovie (kwargs : gmap string value) (r : reply (list Byte.byte))
| EvSaveFile (kwargs : gmap string value) (r : reply unit).

Definition is_poll (e : event) : bool :=
  match e with EvGetMovieStatus _ _ => true | _ => false end.
Definition is_clock (e : event) : bool :=
  match e with EvTime _ => true | _ => false end.
Definition is_sleep (e : event) : bool :=
  match e with EvSleep _ => true | _ => false end.
Definition is_queue (e : event) : bool :=
  match e with EvQueueMovie _ _ => true | _ => false end.
Definition is_download (e : event) : bool :=
  match e with EvDownloadMovie _ _ => true | _ => false end.

(** The environment: each collaborator answers from the history of the run
    and the arguments of the call. *)
Record World := {
  queueMovie : list event → gmap string value → reply (gmap string scalar);
  getMovieStatus : list event → gmap string value → reply (gmap string scalar);
  time_time : list event → F;
  downloadMovie : list event → gmap string value → reply (list Byte.byte);
  save_file : list event → gmap string value → reply unit }.

(** A computation reads the history and yields an outcome with the events
    it added. *)
Definition M (A : Type) : Type := list event → outcome A * list event.

Definition ret {A} (a : A) : M A := λ _, (Returned a, []).
Definition raise {A} (e : exn) : M A := λ _, (Raised e, []).
Definition out_of_fuel {A} : M A := λ _, (OutOfFuel, []).

Definition bind {A B} (m : M A) (k : A → M B) : M B :=
  λ h,
    match m h with
    | (Returned a, d) =>
        match k a (h ++ d) with (o, d') => (o, d ++ d') end
    | (Raised e, d) => (Raised e, d)
    | (OutOfFuel, d) => (OutOfFuel, d)
    end.

#[export] Instance M_ret : MRet M := @ret.
#[export] Instance M_bind : MBind M := λ A B k m, bind m k.
#[export] Instance M_throw : MThrow exn M := @raise.

Variable w : World.

(** A collaborator call: the oracle answers from the history, and the call
    is recorded with its answer. *)
Definition call {A} (oracle : list event → gmap string value → reply A)
    (ev : gmap string value → reply A → event) (kwargs : gmap string value) : M A :=
  λ h,
    let r := oracle h kwargs in
    (match r with Reply a => Returned a | Throws e => Raised e end, [ev kwargs r]).

(** [time.time()] *)
Definition now : M F := λ h, (Returned (time_time w h), [EvTime (time_time w h)]).

(** [time.sleep(secs)] *)
Definition sleep (secs : Z) : M unit := λ _, (Returned (), [EvSleep secs]).

(** [d[k]]: [KeyError] when the key is missing. *)
Definition getitem (d : gmap string scalar) (k : string) : M scalar :=
  match d !! k with
  | Some v => mret v
  | None => mthrow (KeyError k)
  end.

(** The f-string of line 109. *)
Definition timeout_message (t : F) : string :=
  "Exceeded timeout of " +:+ num_str t +:+ " minutes.".

(** Lines 104-111: the loop body after [getMovieStatus] has answered. *)
Definition classify (a : Args) (timeout_counter : F)
    (status : gmap string scalar) : M ctl :=
  s ← getitem status "status";
  (if py_in s [SInt 0; SInt 1] then sleep 3 else mret ());;
  s ← getitem status "status";
  if py_eq s (SInt 2) then mret Break else
  t ← now;
  if num_gtb t timeout_counter then
    mthrow (RuntimeError (SStr (timeout_message (timeout a))))
  else
  s ← getitem status "status";
  if py_eq s (SInt 3) then
    e ← getitem status "error"; mthrow (RuntimeError e)
  else mret Continue.

(** The keyword arguments of the calls of [getMovieStatus] (lines 99-103),
    [downloadMovie] (lines 112-116) and [save_file] (lines 121-125). *)
Definition status_kwargs (a : Args) (id token : scalar) : gmap string value :=
  <["id" := VScalar id]> (<["format" := vstr (format a)]>
    (<["token" := VScalar token]> ∅)).
Definition download_kwargs (a : Args) (id : scalar) : gmap string value :=
  <["id" := VScalar id]> (<["format" := vstr (format a)]>
    (<["hq" := vbool (hq a)]> ∅)).
Definition save_kwargs (a : Args) (data : list Byte.byte) (name : string)
    : gmap string value :=
  <["data" := VBytes data]> (<["filename" := vstr name]>
    (<["overwrite" := vbool (overwrite a)]> ∅)).

(** Lines 99-111: one iteration.  The keyword arguments are evaluated in
    order, then [getMovieStatus] is called. *)
Definition iteration (a : Args) (res : gmap string scalar) (timeout_counter : F) : M ctl :=
  id ← getitem res "id";
  token ← getitem res "token";
  status ← call (getMovieStatus w) EvGetMovieStatus (status_kwargs a id token);
  classify a timeout_counter status.

(** Lines 98-111: [while True].  The loop has no bound of its own; [fuel]
    bounds the number of iterations a run is followed for. *)
Fixpoint poll_loop (a : Args) (res : gmap string scalar) (timeout_counter : F)
    (fuel : nat) : M unit :=
  match fuel with
  | O => out_of_fuel
  | S n =>
      c ← iteration a res timeout_counter;
      match c with
      | Break => mret ()
      | Continue => poll_loop a res timeout_counter n
      end
  end.

(** Lines 117-120: the name the movie is saved under. *)
Definition resolve_filename (a : Args) (res : gmap string scalar) : M string :=
  match filename a with
  | None =>
      id ← getitem res "id";
      mret (py_str id +:+ "_" +:+ date_str (datetime_date (startTime a)) +:+ "_"
              +:+ date_str (datetime_date (endTime a)) +:+ "." +:+ format a)
  | Some f => mret (path_like_str f +:+ "." +:+ format a)
  end.

(** Lines 112-126: download, name, save and return. *)
Definition fetch_and_save (a : Args) (res : gmap string scalar) : M Path :=
  id ← getitem res "id";
  binary_data ← call (downloadMovie w) EvDownloadMovie (download_kwargs a id);
  filename ← resolve_filename a res;
  call (save_file w) EvSaveFile (save_kwargs a binary_data filename);;
  mret (mkPath filename).

(** Lines 97-126: everything after a submission that reported no error. *)
Definition await_movie (a : Args) (res : gmap string scalar) (fuel : nat) : M Path :=
  t0 ← now;
  let timeout_counter := num_add t0 (num_mul (num_of_Z 60) (timeout a)) in
  poll_loop a res timeout_counter fuel;;
  fetch_and_save a res.

Definition createMovie (a : Args) (fuel : nat) : M Path :=
  res ← call (queueMovie w) EvQueueMovie (input_params a);
  if truthy (dict_get res "error") then
    e ← getitem res "error"; mthrow (RuntimeError e)
  else await_movie a res fuel.

(** A whole run starts from the empty history. *)
Definition run (a : Args) (fuel : nat) : outcome Path * list event :=
  createMovie a fuel [].

End Helpers.

Arguments value F : clear implicits.
Arguments Args F : clear implicits.
Arguments event F : clear implicits.
Arguments World F : clear implicits.
Arguments M F A : clear implicits.

(** ** Concrete worlds *)

(** How many times [getMovieStatus] and [time.time] were called so far. *)
Definition polls_so_far {F} (h : list (event F)) : nat :=
  length (List.filter is_poll h).
Definition clock_reads_so_far {F} (h : list (event F)) : nat :=
  length (List.filter is_clock h).

(** A world that plays a script: the submit response, the status responses
    in order (the connection is refused once they run out), the clock
    readings in order (the last one repeats), the movie bytes, and whether
    saving succeeds. *)
Definition scripted (submit : gmap string scalar) (statuses : list (gmap string scalar))
    (clock : list Z) (movie : list Byte.byte) (save : reply unit) : World Z := {|
  queueMovie _ _ := Reply submit;
  getMovieStatus h _ :=
    match statuses !! polls_so_far h with
    | Some st => Reply st
    | None => Throws (OtherError "ConnectionError" "refused")
    end;
  time_time h := nth (clock_reads_so_far h) clock (List.last clock 0%Z);
  downloadMovie _ _ := Reply movie;
  save_file _ _ := save |}.

(** The docstring's example call, with the defaults of the signature. *)
Definition example_args : Args Z := {|
  startTime := {| year := 2024; month := 1; day := 1; hour := 0; minute := 0;
                  second := 0; microsecond := 0 |};
  endTime := {| year := 2024; month := 1; day := 2; hour := 0; minute := 5;
                second := 0; microsecond := 0 |};
  layers := "[10,1,100]";
  events := "[AR,all,1]";
  eventsLabels := true;
  imageScale := 1%Z;
  format := "mp4";
  frameRate := "15";
  maxFrames := None; scale := None; scaleType := None;
  scaleX := None; scaleY := None; movieLength := None;
  watermark := true;
  width := None; height := None;
  x0 := None; y0 := None; x1 := None; y1 := None; x2 := None; y2 := None;
  size := 0%Z;
  movieIcons := None; followViewport := None; reqObservationDate := None;
  overwrite := false;
  filename := None;
  hq := false;
  timeout := 5%Z |}.

Definition handle : gmap string scalar :=
  <["id" := SStr "42"]> (<["token" := SStr "tok"]> ∅).
Definition st (code : Z) : gmap string scalar := <["status" := SInt code]> ∅.

Definition failed (msg : string) : gmap string scalar :=
  <["status" := SInt 3]> (<["error" := SStr msg]> ∅).

Definition movie : list Byte.byte := [Byte.x00; Byte.x00; Byte.x01].

(** The job is queued, runs, reports a code the client does not know, and
    completes. *)
Definition w_complete : World Z :=
  scripted handle [st 0; st 1; st 7; st 2] [100; 103; 106; 107]%Z movie (Reply ()).

(** The job is complete at the first status call. *)
Definition w_quick : World Z :=
  scripted handle [st 2] [100]%Z movie (Reply ()).

(** The job fails while the deadline (400) is still ahead. *)
Definition w_failed : World Z :=
  scripted handle [st 0; failed "render failed"] [100; 103; 106]%Z movie (Reply ()).

(** The job fails, and the clock is past the deadline when it is read. *)
Definition w_failed_late : World Z :=
  scripted handle [failed "render failed"] [100; 401]%Z movie (Reply ()).
Definition w_failed_later : World Z :=
  scripted handle [st 1; failed "out of disk"] [0; 3; 900]%Z movie (Reply ()).

(** The job fails and the service gives no message. *)
Definition w_failed_silent : World Z :=
  scripted handle [st 3] [100; 103]%Z movie (Reply ()).

(** The submission is rejected. *)
Definition rejection : gmap string scalar := <["error" := SStr "Invalid layer string"]> ∅.
Definition w_rejected : World Z := scripted rejection [] [] [] (Reply ()).

(** The docstring's call with [filename="movie"] and [format="webm"]. *)
Definition named_args : Args Z :=
  {| startTime := startTime example_args; endTime := endTime example_args;
     layers := layers example_args; events := events example_args;
     eventsLabels := eventsLabels example_args; imageScale := imageScale example_args;
     format := "webm"; frameRate := frameRate example_args;
     maxFrames := None; scale := None; scaleType := None;
     scaleX := None; scaleY := None; movieLength := None;
     watermark := true; width := None; height := None;
     x0 := None; y0 := None; x1 := None; y1 := None; x2 := None; y2 := None;
     size := 0%Z; movieIcons := None; followViewport := None;
     reqObservationDate := None;
     overwrite := true; filename := Some (PStr "movie"); hq := true;
     timeout := 1%Z |}.

(** The events and traces of the runs below. *)
Definition submit_ev : event Z := EvQueueMovie (input_params example_args) (Reply handle).
Definition poll_kw : gmap string (value Z) :=
  status_kwargs example_args (SStr "42") (SStr "tok").
Definition poll_ev (status : gmap string scalar) : event Z :=
  EvGetMovieStatus poll_kw (Reply status).
Definition download_ev : event Z :=
  EvDownloadMovie (download_kwargs example_args (SStr "42")) (Reply movie).
Definition save_ev : event Z :=
  EvSaveFile (save_kwargs example_args movie "42_2024-01-01_2024-01-02.mp4") (Reply ()).

Definition render_failed : outcome Path := Raised (RuntimeError (SStr "render failed")).
Definition before_failed : list (event Z) :=
  [submit_ev; EvTime 100%Z; poll_ev (st 0); EvSleep 3; EvTime 103%Z].
Definition before_complete : list (event Z) :=
  [submit_ev; EvTime 100%Z;
   poll_ev (st 0); EvSleep 3; EvTime 103%Z;
   poll_ev (st 1); EvSleep 3; EvTime 106%Z;
   poll_ev (st 7); EvTime 107%Z].

Definition complete_run : list (event Z) :=
  before_complete ++ [poll_ev (st 2); download_ev; save_ev].
Definition before_unknown : list (event Z) :=
  [submit_ev; EvTime 100%Z;
   poll_ev (st 0); EvSleep 3; EvTime 103%Z;
   poll_ev (st 1); EvSleep 3; EvTime 106%Z].

(** A world that plays a script in which every call may fail. *)
Definition played (submit : reply (gmap string scalar))
    (statuses : list (reply (gmap string scalar))) (clock : list Z)
    (download : reply (list Byte.byte)) (save : reply unit) : World Z := {|
  queueMovie _ _ := submit;
  getMovieStatus h _ :=
    match statuses !! polls_so_far h with
    | Some r => r
    | None => Throws (OtherError "ConnectionError" "refused")
    end;
  time_time h := nth (clock_reads_so_far h) clock (List.last clock 0%Z);
  downloadMovie _ _ := download;
  save_file _ _ := save |}.

Definition unreachable : exn := OtherError "ConnectionError" "unreachable".
Definition refused : exn := OtherError "ConnectionError" "refused".
Definition not_found : exn := OtherError "HTTPError" "404".
Definition file_exists : exn := OtherError "ValueError" "file exists".

(** The service cannot be reached. *)
Definition w_unreachable : World Z := played (Throws unreachable) [] [] (Reply movie) (Reply ()).

(** The submit reply has an empty error string beside the handle. *)
Definition blank_error : gmap string scalar := <["error" := SStr EmptyString]> handle.
Definition w_blank_error : World Z := scripted blank_error [st 2] [100]%Z movie (Reply ()).

(** The submit reply has an id and no token. *)
Definition no_token : gmap string scalar := <["id" := SStr "42"]> ∅.
Definition w_no_token : World Z := scripted no_token [st 2] [100]%Z movie (Reply ()).

(** The status reply is an empty object. *)
Definition w_no_status : World Z := scripted handle [∅] [100]%Z movie (Reply ()).

(** The second status call is refused. *)
Definition w_status_down : World Z := scripted handle [st 0] [100; 103]%Z movie (Reply ()).

(** The job stays queued and the clock stands still. *)
Definition w_pending : World Z := {|
  queueMovie _ _ := Reply handle;
  getMovieStatus _ _ := Reply (st 0);
  time_time _ := 100%Z;
  downloadMovie _ _ := Reply movie;
  save_file _ _ := Reply () |}.

(** The download fails; the file cannot be written. *)
Definition w_download_fails : World Z :=
  played (Reply handle) [Reply (st 2)] [100]%Z (Throws not_found) (Reply ()).
Definition w_save_fails : World Z := scripted handle [st 2] [100]%Z movie (Throws file_exists).

(** The example call with [timeout=0]. *)
Definition impatient_args : Args Z := with_policy example_args false None false 0%Z.


(** ** Properties of a run *)

Section Properties.
Context {F : Type} `{Number F}.
Variable w : World F.

Implicit Types (a : Args F) (res status : gmap string scalar) (h d : list (event F)).

(** *** Traces: what the steps of a run do, written out *)

(** The events a classification adds before the clock is read. *)
Definition slept (v : scalar) : list (event F) :=
  if py_in v [SInt 0; SInt 1] then [EvSleep 3] else [].

(** What one classification does, as a function of the status value and of
    the clock reading. *)
Definition classified (a : Args F) (timeout_counter : F) status h
    : outcome ctl * list (event F) :=
  match status !! "status" with
  | None => (Raised (KeyError "status"), [])
  | Some v =>
      if py_eq v (SInt 2) then (Returned Break, slept v)
      else
        let t := time_time w (h ++ slept v) in
        (if num_gtb t timeout_counter then
           Raised (RuntimeError (SStr (timeout_message (timeout a))))
         else if py_eq v (SInt 3) then
           match status !! "error" with
           | Some e => Raised (RuntimeError e)
           | None => Raised (KeyError "error")
           end
         else Returned Continue,
         slept v ++ [EvTime t])
  end.

(** The file name of lines 117-120, given the job id. *)
Definition saved_name a (id : scalar) : string :=
  match filename a with
  | None =>
      py_str id +:+ "_" +:+ date_str (datetime_date (startTime a)) +:+ "_"
        +:+ date_str (datetime_date (endTime a)) +:+ "." +:+ format a
  | Some f => path_like_str f +:+ "." +:+ format a
  end.

(** What the steps after the loop do. *)
Definition fetched a res h : outcome Path * list (event F) :=
  match res !! "id" with
  | None => (Raised (KeyError "id"), [])
  | Some id =>
      match downloadMovie w h (download_kwargs a id) with
      | Throws e => (Raised e, [EvDownloadMovie (download_kwargs a id) (Throws e)])
      | Reply data =>
          let dl := EvDownloadMovie (download_kwargs a id) (Reply data) in
          let kw := save_kwargs a data (saved_name a id) in
          let r := save_file w (h ++ [dl]) kw in
          (match r with
           | Reply _ => Returned (mkPath (saved_name a id))
           | Throws e => Raised e
           end,
           [dl; EvSaveFile kw r])
      end
  end.

Definition loop_event (e : event F) : bool := is_poll e || is_sleep e || is_clock e.
Definition wait_event (e : event F) : bool := is_sleep e || is_clock e.
Definition fetch_event (e : event F) : bool :=
  match e with EvDownloadMovie _ _ | EvSaveFile _ _ => true | _ => false end.

(** Where a run stands after a status reply: classify it, then either
    leave the loop or go round again. *)
Definition resume a res (tc : F) (c : ctl) (n : nat) : M F Path :=
  match c with
  | Break => fetch_and_save w a res
  | Continue => poll_loop w a res tc n ≫= λ _, fetch_and_save w a res
  end.

Definition after_poll a res (tc : F) status (n : nat) : M F Path :=
  classify w a tc status ≫= λ c, resume a res tc c n.

(** The exception a collaborator call ended with, if it did. *)
Definition thrown (e : event F) : option exn :=
  match e with
  | EvQueueMovie _ (Throws x) | EvGetMovieStatus _ (Throws x)
  | EvDownloadMovie _ (Throws x) | EvSaveFile _ (Throws x) => Some x
  | _ => None
  end.

(** The deadline of line 97, from the clock reading it is computed from. *)
Definition deadline a (t0 : F) : F := num_add t0 (num_mul (num_of_Z 60) (timeout a)).

(** *** The monad and the steps of a run *)

Lemma bind_run {A B} (m : M F A) (k : A → M F B) h :
  (m ≫= k) h =
    match m h with
    | (Returned x, d) => match k x (h ++ d) with (o, d') => (o, d ++ d') end
    | (Raised e, d) => (Raised e, d)
    | (OutOfFuel, d) => (OutOfFuel, d)
    end.
Proof. reflexivity. Qed.

Lemma ret_bind {A B} (x : A) (k : A → M F B) h : (mret x ≫= k) h = k x h.
Proof. rewrite bind_run. cbn. rewrite app_nil_r. by destruct (k x h). Qed.

Lemma throw_bind {A B} (e : exn) (k : A → M F B) h :
  (mthrow e ≫= k) h = (Raised e, []).
Proof. reflexivity. Qed.

Lemma out_of_fuel_bind {A B} (k : A → M F B) h :
  (out_of_fuel ≫= k) h = (OutOfFuel, []).
Proof. reflexivity. Qed.

Lemma getitem_bind {B} (m : gmap string scalar) key (k : scalar → M F B) h :
  (getitem m key ≫= k) h =
    match m !! key with
    | Some v => k v h
    | None => (Raised (KeyError key), [])
    end.
Proof. unfold getitem. destruct (m !! key); [apply ret_bind | apply throw_bind]. Qed.

Lemma now_bind {B} (k : F → M F B) h :
  (now w ≫= k) h =
    match k (time_time w h) (h ++ [EvTime (time_time w h)]) with
    | (o, d) => (o, EvTime (time_time w h) :: d)
    end.
Proof. reflexivity. Qed.

Lemma sleep_bind {B} secs (k : unit → M F B) h :
  (sleep secs ≫= k) h =
    match k () (h ++ [EvSleep secs]) with (o, d) => (o, EvSleep secs :: d) end.
Proof. reflexivity. Qed.

Lemma call_bind {A B} oracle ev kwargs (k : A → M F B) h :
  (call oracle ev kwargs ≫= k) h =
    match oracle h kwargs with
    | Reply x =>
        match k x (h ++ [ev kwargs (Reply x)]) with
        | (o, d) => (o, ev kwargs (Reply x) :: d)
        end
    | Throws e => (Raised e, [ev kwargs (Throws e)])
    end.
Proof. rewrite bind_run. unfold call. by destruct (oracle h kwargs). Qed.

Lemma bind_assoc {A B C} (m : M F A) (k : A → M F B) (k' : B → M F C) h :
  ((m ≫= k) ≫= k') h = (m ≫= λ x, k x ≫= k') h.
Proof.
  rewrite !bind_run. destruct (m h) as [[x| |] d]; [|done..].
  rewrite bind_run. destruct (k x (h ++ d)) as [[y| |] d']; [|done..].
  rewrite app_assoc. destruct (k' y _) as [o d'']. by rewrite app_assoc.
Qed.

Lemma classify_run a tc status h :
  classify w a tc status h = classified a tc status h.
Proof.
  unfold classify, classified.
  rewrite getitem_bind.
  destruct (status !! "status") as [v|] eqn:Hv; [|done].
  assert (Hrest : ∀ h',
    (getitem status "status" ≫= λ s,
       if py_eq s (SInt 2) then mret Break else
       now w ≫= λ t,
         if num_gtb t tc then
           mthrow (RuntimeError (SStr (timeout_message (timeout a))))
         else
           getitem status "status" ≫= λ s0,
             if py_eq s0 (SInt 3) then
               getitem status "error" ≫= λ e, mthrow (RuntimeError e)
             else mret Continue) h' =
    if py_eq v (SInt 2) then (Returned Break, [])
    else
      (if num_gtb (time_time w h') tc then
         Raised (RuntimeError (SStr (timeout_message (timeout a))))
       else if py_eq v (SInt 3) then
         match status !! "error" with
         | Some e => Raised (RuntimeError e)
         | None => Raised (KeyError "error")
         end
       else Returned Continue,
       [EvTime (time_time w h')])).
  { intros h'. rewrite getitem_bind, Hv.
    destruct (py_eq v (SInt 2)); [done|].
    rewrite now_bind.
    destruct (num_gtb _ tc); [done|].
    rewrite getitem_bind, Hv.
    destruct (py_eq v (SInt 3)); [|done].
    rewrite getitem_bind. by destruct (status !! "error"). }
  unfold slept. destruct (py_in v [SInt 0; SInt 1]).
  - rewrite sleep_bind, Hrest. by destruct (py_eq v (SInt 2)).
  - rewrite ret_bind, Hrest, app_nil_r. by destruct (py_eq v (SInt 2)).
Qed.

Lemma fetch_and_save_run a res h : fetch_and_save w a res h = fetched a res h.
Proof.
  unfold fetch_and_save, fetched. rewrite getitem_bind.
  destruct (res !! "id") as [id|] eqn:Hid; [|done].
  rewrite call_bind.
  destruct (downloadMovie w h _) as [data|e]; [|done].
  assert (Hname : ∀ B (k : string → M F B) h',
    (resolve_filename a res ≫= k) h' = k (saved_name a id) h').
  { intros B k h'. unfold resolve_filename, saved_name.
    destruct (filename a); [apply ret_bind|].
    by rewrite bind_assoc, getitem_bind, Hid, ret_bind. }
  rewrite Hname, call_bind.
  cbn zeta. by destruct (save_file w _ _) as [[]|e].
Qed.

Lemma classified_events a tc status h o d :
  classified a tc status h = (o, d) → forallb wait_event d = true.
Proof.
  unfold classified, slept. intros Hc.
  destruct (status !! "status") as [v|]; [|by inversion Hc].
  destruct (py_in v _), (py_eq v (SInt 2)); by inversion Hc.
Qed.

Lemma fetched_events a res h o d :
  fetched a res h = (o, d) → forallb fetch_event d = true.
Proof.
  unfold fetched. intros Hf.
  destruct (res !! "id"); [|by inversion Hf].
  destruct (downloadMovie w h _); by inversion Hf.
Qed.

(** Splitting a trace at an event that its first part cannot contain. *)
Lemma split_after (P : event F → bool) (l r pre post : list (event F)) p :
  forallb (λ e, negb (P e)) l = true → P p = true →
  l ++ r = pre ++ p :: post →
  ∃ pre', pre = l ++ pre' ∧ r = pre' ++ p :: post.
Proof.
  revert pre. induction l as [|x l IH]; intros pre Hl Hp Heq.
  - by exists pre.
  - cbn in Hl. apply andb_prop in Hl as [Hx Hl].
    destruct pre as [|y pre]; cbn in Heq; inversion Heq; subst.
    + rewrite Hp in Hx. done.
    + destruct (IH pre Hl Hp) as (pre' & -> & ->); [done|]. by exists pre'.
Qed.

Lemma forallb_weaken (P Q : event F → bool) (l : list (event F)) :
  (∀ e, P e = true → Q e = true) → forallb P l = true → forallb Q l = true.
Proof.
  intros HPQ. induction l as [|x l IH]; [done|]. cbn.
  intros [Hx Hl]%andb_prop. by rewrite (HPQ _ Hx), (IH Hl).
Qed.

Lemma bind_ext {A B} (m : M F A) (k k' : A → M F B) h :
  (∀ x h', k x h' = k' x h') → (m ≫= k) h = (m ≫= k') h.
Proof. intros Hk. rewrite !bind_run. destruct (m h) as [[x| |] d]; [|done..]. by rewrite Hk. Qed.

Lemma poll_loop_step a res tc n h :
  (poll_loop w a res tc (S n) ≫= λ _, fetch_and_save w a res) h =
    match res !! "id", res !! "token" with
    | None, _ => (Raised (KeyError "id"), [])
    | Some _, None => (Raised (KeyError "token"), [])
    | Some id, Some token =>
        let kw := status_kwargs a id token in
        match getMovieStatus w h kw with
        | Throws e => (Raised e, [EvGetMovieStatus kw (Throws e)])
        | Reply status =>
            match after_poll a res tc status n (h ++ [EvGetMovieStatus kw (Reply status)]) with
            | (o, d) => (o, EvGetMovieStatus kw (Reply status) :: d)
            end
        end
    end.
Proof.
  cbn [poll_loop]. rewrite bind_assoc. unfold iteration.
  rewrite bind_assoc, getitem_bind.
  destruct (res !! "id") as [id|]; [|done].
  rewrite bind_assoc, getitem_bind.
  destruct (res !! "token") as [token|]; [|done].
  rewrite bind_assoc, call_bind. cbn zeta.
  destruct (getMovieStatus w h _) as [status|e]; [|done].
  unfold after_poll.
  rewrite (bind_ext _ _ (λ c, resume a res tc c n)); [done|].
  intros [] h'; cbn [resume]; [done|].
  exact (ret_bind () (λ _, fetch_and_save w a res) h').
Qed.

Lemma polls_so_far_app (l l' : list (event F)) :
  polls_so_far (l ++ l') = polls_so_far l + polls_so_far l'.
Proof. unfold polls_so_far. by rewrite List.filter_app, length_app. Qed.

Lemma polls_so_far_poll kw r (l : list (event F)) :
  polls_so_far (EvGetMovieStatus kw r :: l) = S (polls_so_far l).
Proof. reflexivity. Qed.

Lemma polls_so_far_none (l : list (event F)) :
  forallb (λ e, negb (is_poll e)) l = true → polls_so_far l = 0.
Proof.
  unfold polls_so_far. induction l as [|x l IH]; [done|]. cbn.
  intros [Hx Hl]%andb_prop. destruct (is_poll x); [done|]. by apply IH.
Qed.

Lemma wait_not_poll (l : list (event F)) :
  forallb wait_event l = true → forallb (λ e, negb (is_poll e)) l = true.
Proof. apply forallb_weaken. by intros []. Qed.

Lemma fetch_not_poll (l : list (event F)) :
  forallb fetch_event l = true → forallb (λ e, negb (is_poll e)) l = true.
Proof. apply forallb_weaken. by intros []. Qed.

(** The state of the loop at any status call of a run: the events before
    it are loop events, the call carries the job handle, and the rest of
    the run is [after_poll] on the reply with the iterations that are
    left. *)
Lemma loop_at_poll a res tc n : ∀ h o d pre kw r post,
  (poll_loop w a res tc n ≫= λ _, fetch_and_save w a res) h = (o, d) →
  d = pre ++ EvGetMovieStatus kw r :: post →
  forallb loop_event pre = true ∧
  ∃ id token n',
    res !! "id" = Some id ∧ res !! "token" = Some token ∧
    kw = status_kwargs a id token ∧
    r = getMovieStatus w (h ++ pre) kw ∧
    n = S (polls_so_far pre + n') ∧
    match r with
    | Throws e => o = Raised e ∧ post = []
    | Reply status =>
        after_poll a res tc status n' (h ++ pre ++ [EvGetMovieStatus kw r]) = (o, post)
    end.
Proof.
  induction n as [|m IH]; intros h o d pre kw r post Hrun ->.
  { cbn [poll_loop] in Hrun. rewrite out_of_fuel_bind in Hrun.
    injection Hrun as _ Hd. by destruct pre. }
  rewrite poll_loop_step in Hrun.
  destruct (res !! "id") as [id|]; [|injection Hrun as _ Hd; by destruct pre].
  destruct (res !! "token") as [token|]; [|injection Hrun as _ Hd; by destruct pre].
  cbn zeta in Hrun.
  destruct (getMovieStatus w h _) as [status|e] eqn:Hreply.
  - destruct (after_poll a res tc status m _) as [o1 d1] eqn:Hafter.
    injection Hrun as -> Hd.
    destruct pre as [|e0 pre]; cbn [app] in Hd.
    + injection Hd as <- <- <-. split; [done|]. exists id, token, m.
      rewrite app_nil_r, Hreply. by rewrite app_nil_l.
    + injection Hd as <- Hd. unfold after_poll in Hafter. rewrite bind_run, classify_run in Hafter.
      destruct (classified a tc status _) as [oc dc] eqn:Hc.
      pose proof (classified_events _ _ _ _ _ _ Hc) as Hdc.
      assert (Hstop : d1 = dc → False).
      { intros ->. subst dc. apply wait_not_poll in Hdc.
        rewrite forallb_app in Hdc. by apply andb_prop in Hdc as [_ Hdc]. }
      destruct oc as [c| |]; [|injection Hafter as _ Hd'; by destruct Hstop..].
      destruct (resume a res tc c m _) as [o2 d2] eqn:Hres.
      injection Hafter as -> Hd'. subst d1.
      destruct (split_after is_poll dc d2 pre post (EvGetMovieStatus kw r))
        as (pre' & -> & ->); [by apply wait_not_poll|done|done|].
      destruct c; cbn [resume] in Hres.
      * destruct (IH _ _ _ _ _ _ _ Hres eq_refl)
          as (Hpre' & id' & token' & n' & Hid & Htok & Hkw & Hr & -> & Hrest).
        clear IH Hstop Hres.
        split.
        { cbn. rewrite forallb_app, Hpre', andb_true_r.
          revert Hdc. apply forallb_weaken. intros []; cbn; done. }
        exists id', token', n'.
        rewrite polls_so_far_poll, polls_so_far_app.
        rewrite (polls_so_far_none dc) by by apply wait_not_poll.
        repeat (rewrite <- ?app_assoc in Hr, Hrest; cbn [app] in Hr, Hrest).
        repeat (rewrite <- ?app_assoc; cbn [app]).
        done.
      * rewrite fetch_and_save_run in Hres.
        apply fetched_events, fetch_not_poll in Hres.
        rewrite forallb_app in Hres. by apply andb_prop in Hres as [_ Hres].
  - injection Hrun as <- Hd.
    destruct pre as [|e0 pre]; cbn [app] in Hd; [|by destruct pre].
    injection Hd as <- <- <-. split; [done|]. exists id, token, m.
    rewrite app_nil_r, Hreply. done.
Qed.

(** The events of the loop come first and those of the fetch, if the run
    gets that far, last. *)
Lemma loop_then_fetch a res tc n : ∀ h o d,
  (poll_loop w a res tc n ≫= λ _, fetch_and_save w a res) h = (o, d) →
  ∃ dl df,
    d = dl ++ df ∧ forallb loop_event dl = true ∧
    ((df = [] ∧ ∀ p, o ≠ Returned p) ∨ fetched a res (h ++ dl) = (o, df)).
Proof.
  induction n as [|m IH]; intros h o d Hrun.
  { cbn [poll_loop] in Hrun. rewrite out_of_fuel_bind in Hrun.
    injection Hrun as <- <-. exists [], []. auto. }
  rewrite poll_loop_step in Hrun.
  destruct (res !! "id") as [id|];
    [|injection Hrun as <- <-; exists [], []; auto].
  destruct (res !! "token") as [token|];
    [|injection Hrun as <- <-; exists [], []; auto].
  cbn zeta in Hrun.
  destruct (getMovieStatus w h _) as [status|e];
    [|injection Hrun as <- <-; eexists [_], []; auto].
  destruct (after_poll a res tc status m _) as [o1 d1] eqn:Hafter.
  injection Hrun as -> <-.
  unfold after_poll in Hafter. rewrite bind_run, classify_run in Hafter.
  destruct (classified a tc status _) as [oc dc] eqn:Hc.
  assert (Hdc : forallb loop_event dc = true).
  { apply classified_events in Hc. revert Hc. apply forallb_weaken.
    by intros []. }
  destruct oc as [c| |];
    [|injection Hafter as <- <-; eexists (_ :: dc), []; rewrite app_nil_r; auto..].
  destruct (resume a res tc c m _) as [o2 d2] eqn:Hres.
  injection Hafter as -> <-.
  destruct c; cbn [resume] in Hres.
  - destruct (IH _ _ _ Hres) as (dl & df & -> & Hdl & Hdf).
    eexists (_ :: dc ++ dl), df.
    split; [cbn [app]; by rewrite <- ?app_assoc|].
    split; [cbn; by rewrite forallb_app, Hdc, Hdl|].
    destruct Hdf as [Hdf|Hdf]; [by left|right].
    rewrite <- Hdf. f_equal. rewrite <- !app_assoc. by cbn [app].
  - rewrite fetch_and_save_run in Hres.
    eexists (_ :: dc), d2. split; [done|]. split; [by cbn|]. right.
    rewrite <- Hres. f_equal. rewrite <- !app_assoc. by cbn [app].
Qed.

(** A run, one step at a time up to the loop. *)
Lemma run_unfold a fuel :
  run w a fuel =
    match queueMovie w [] (input_params a) with
    | Throws e => (Raised e, [EvQueueMovie (input_params a) (Throws e)])
    | Reply res =>
        let q := EvQueueMovie (input_params a) (Reply res) in
        if truthy (dict_get res "error") then
          (match res !! "error" with
           | Some e => Raised (RuntimeError e)
           | None => Raised (KeyError "error")
           end, [q])
        else
          let t0 := time_time w [q] in
          match (poll_loop w a res (deadline a t0) fuel ≫= λ _, fetch_and_save w a res)
                  [q; EvTime t0] with
          | (o, d) => (o, q :: EvTime t0 :: d)
          end
    end.
Proof.
  unfold run, createMovie. rewrite call_bind.
  destruct (queueMovie w [] _) as [res|e]; [|done].
  cbn zeta. destruct (truthy _).
  - rewrite getitem_bind. by destruct (res !! "error").
  - unfold await_movie. rewrite now_bind. by destruct (_ ≫= _).
Qed.

(** [loop_at_poll] for a whole run. *)
Lemma run_at_poll a fuel o pre kw r post :
  run w a fuel = (o, pre ++ EvGetMovieStatus kw r :: post) →
  ∃ res id token pre' n',
    let q := EvQueueMovie (input_params a) (Reply res) in
    let t0 := time_time w [q] in
    queueMovie w [] (input_params a) = Reply res ∧
    truthy (dict_get res "error") = false ∧
    pre = q :: EvTime t0 :: pre' ∧
    forallb loop_event pre' = true ∧
    res !! "id" = Some id ∧ res !! "token" = Some token ∧
    kw = status_kwargs a id token ∧
    r = getMovieStatus w pre kw ∧
    fuel = S (polls_so_far pre + n') ∧
    match r with
    | Throws e => o = Raised e ∧ post = []
    | Reply status =>
        after_poll a res (deadline a t0) status n' (pre ++ [EvGetMovieStatus kw r])
          = (o, post)
    end.
Proof.
  rewrite run_unfold.
  destruct (queueMovie w [] _) as [res|e];
    [|intros [= _ Hd]; destruct pre as [|? [|]]; discriminate].
  cbn zeta. destruct (truthy _) eqn:Herr;
    [intros [= _ Hd]; destruct pre as [|? [|]]; discriminate|].
  destruct (_ ≫= _) as [o1 d1] eqn:Hloop. intros [= -> Hd].
  destruct pre as [|e0 [|e1 pre']]; try discriminate.
  injection Hd as <- <- ->.
  destruct (loop_at_poll _ _ _ _ _ _ _ _ _ _ _ Hloop eq_refl)
    as (Hpre & id & token & n' & Hid & Htok & Hkw & Hr & Hn & Hrest).
  exists res, id, token, pre', n'. cbn zeta. done.
Qed.

Lemma py_eq_int v n : py_eq v (SInt n) = true → v = SInt n ∨ ∃ b, v = SBool b ∧ Z.b2z b = n.
Proof.
  destruct v as [|b|m|s]; cbn; try done.
  - intros ?%Z.eqb_eq. right. by exists b.
  - intros ->%Z.eqb_eq. by left.
Qed.

Lemma py_eq_2 v : py_eq v (SInt 2) = true → v = SInt 2.
Proof. intros [->|(b & -> & Hb)]%py_eq_int; [done|]. by destruct b. Qed.

Lemma py_eq_3 v : py_eq v (SInt 3) = true → v = SInt 3.
Proof. intros [->|(b & -> & Hb)]%py_eq_int; [done|]. by destruct b. Qed.

(** What follows a status reply in a run, case by case. *)
Lemma run_after_status a fuel o pre kw status post v :
  run w a fuel = (o, pre ++ EvGetMovieStatus kw (Reply status) :: post) →
  status !! "status" = Some v →
  ∃ res id token t0 pre' n',
    pre = EvQueueMovie (input_params a) (Reply res) :: EvTime t0 :: pre' ∧
    forallb loop_event pre' = true ∧
    res !! "id" = Some id ∧ res !! "token" = Some token ∧
    kw = status_kwargs a id token ∧
    fuel = S (polls_so_far pre + n') ∧
    let h := pre ++ [EvGetMovieStatus kw (Reply status)] in
    if py_eq v (SInt 2) then fetched a res h = (o, post)
    else
      ∃ rest,
        let t := time_time w (h ++ slept v) in
        post = slept v ++ EvTime t :: rest ∧
        if num_gtb t (deadline a t0) then
          o = Raised (RuntimeError (SStr (timeout_message (timeout a)))) ∧ rest = []
        else if py_eq v (SInt 3) then
          o = Raised (match status !! "error" with
                      | Some e => RuntimeError e
                      | None => KeyError "error"
                      end) ∧ rest = []
        else
          (poll_loop w a res (deadline a t0) n' ≫= λ _, fetch_and_save w a res)
            (h ++ slept v ++ [EvTime t]) = (o, rest).
Proof.
  intros Hrun Hv.
  destruct (run_at_poll _ _ _ _ _ _ _ Hrun)
    as (res & id & token & pre' & n' & Hq & Herr & Hpre & Hloop & Hid & Htok & Hkw & Hr & Hn & Hafter).
  exists res, id, token, (time_time w [EvQueueMovie (input_params a) (Reply res)]), pre', n'.
  do 6 (split; [done|]). cbn zeta.
  unfold after_poll in Hafter. rewrite bind_run, classify_run in Hafter.
  unfold classified in Hafter. rewrite Hv in Hafter. cbn zeta in Hafter.
  destruct (py_eq v (SInt 2)) eqn:H2.
  - assert (slept v = []) as Hs.
    { apply py_eq_2 in H2 as ->. done. }
    rewrite Hs, app_nil_r in Hafter. cbn [resume] in Hafter.
    rewrite fetch_and_save_run in Hafter.
    destruct (fetched a res _) as [o' d']. by injection Hafter as -> ->.
  - destruct (num_gtb _ _) eqn:Hlate.
    { injection Hafter as <- <-. by eexists []. }
    destruct (py_eq v (SInt 3)) eqn:H3.
    { destruct (status !! "error"); injection Hafter as <- <-; by eexists []. }
    cbn [resume] in Hafter.
    destruct (_ ≫= _) as [o' d'] eqn:Hnext in Hafter.
    injection Hafter as -> <-. exists d'. split; [by rewrite <- app_assoc|].
    exact Hnext.
Qed.

Lemma loop_no_download (l : list (event F)) :
  forallb loop_event l = true → List.filter is_download l = [].
Proof.
  induction l as [|x l IH]; [done|]. cbn.
  intros [Hx Hl]%andb_prop. rewrite (IH Hl). by destruct x.
Qed.

Lemma py_in_cons v x xs : py_in v (x :: xs) = py_eq v x || py_in v xs.
Proof. reflexivity. Qed.

Lemma loop_no_queue (l : list (event F)) :
  forallb loop_event l = true → forallb (λ e, negb (is_queue e)) l = true.
Proof. apply forallb_weaken. by intros []. Qed.

Lemma fetch_no_queue (l : list (event F)) :
  forallb fetch_event l = true → forallb (λ e, negb (is_queue e)) l = true.
Proof. apply forallb_weaken. by intros []. Qed.

(** [pop_key k]: move [delete k] inwards past the bindings of the other
    names, drop the binding of [k], and finish at the empty dict. *)
Ltac pop_key k :=
  rewrite !(delete_insert_ne (M:=gmap string) _ k) by discriminate;
  rewrite (delete_insert_eq (M:=gmap string) _ k);
  rewrite ?(delete_insert_ne (M:=gmap string) _ k) by discriminate;
  rewrite (delete_empty (M:=gmap string) k).

(** The four [pop]s leave the other twenty-seven bindings. *)
Lemma input_params_bindings a :
  input_params a =
    <["startTime" := VDatetime (startTime a)]> (
    <["endTime" := VDatetime (endTime a)]> (
    <["layers" := vstr (layers a)]> (
    <["events" := vstr (events a)]> (
    <["eventsLabels" := vbool (eventsLabels a)]> (
    <["imageScale" := VNum (imageScale a)]> (
    <["format" := vstr (format a)]> (
    <["frameRate" := vstr (frameRate a)]> (
    <["maxFrames" := vopt vstr (maxFrames a)]> (
    <["scale" := vopt vbool (scale a)]> (
    <["scaleType" := vopt vstr (scaleType a)]> (
    <["scaleX" := vopt VNum (scaleX a)]> (
    <["scaleY" := vopt VNum (scaleY a)]> (
    <["movieLength" := vopt VNum (movieLength a)]> (
    <["watermark" := vbool (watermark a)]> (
    <["width" := vopt vstr (width a)]> (
    <["height" := vopt vstr (height a)]> (
    <["x0" := vopt vstr (x0 a)]> (
    <["y0" := vopt vstr (y0 a)]> (
    <["x1" := vopt vstr (x1 a)]> (
    <["y1" := vopt vstr (y1 a)]> (
    <["x2" := vopt vstr (x2 a)]> (
    <["y2" := vopt vstr (y2 a)]> (
    <["size" := vint (size a)]> (
    <["movieIcons" := vopt vint (movieIcons a)]> (
    <["followViewport" := vopt vint (followViewport a)]> (
    <["reqObservationDate" := vopt VDatetime (reqObservationDate a)]> ∅
    )))))))))))))))))))))))))).
Proof.
  unfold input_params, locals.
  pop_key "overwrite"; pop_key "filename"; pop_key "hq"; pop_key "timeout".
  reflexivity.
Qed.



Lemma fetch_no_sleep (l : list (event F)) :
  forallb fetch_event l = true → forallb (λ e, negb (is_sleep e)) l = true.
Proof. apply forallb_weaken. by intros []. Qed.

Lemma clock_no_sleep (l : list (event F)) :
  forallb is_clock l = true → forallb (λ e, negb (is_sleep e)) l = true.
Proof. apply forallb_weaken. by intros []. Qed.

(** The events that follow a status reply: the optional sleep, the
    optional clock reading, then the fetch or the next iterations. *)
Lemma after_poll_shape a res tc status n h o d :
  after_poll a res tc status n h = (o, d) →
  ∃ dc d2,
    d = dc ++ d2 ∧
    (dc = [] ∨
     ∃ v tail, status !! "status" = Some v ∧ dc = slept v ++ tail ∧
               forallb is_clock tail = true) ∧
    (d2 = [] ∨ fetched a res (h ++ dc) = (o, d2) ∨
     (poll_loop w a res tc n ≫= λ _, fetch_and_save w a res) (h ++ dc) = (o, d2)).
Proof.
  unfold after_poll. rewrite bind_run, classify_run. unfold classified.
  destruct (status !! "status") as [v|]; [|intros [= <- <-]; exists [], []; auto].
  cbn zeta.
  assert (Hshape : ∀ dc tail, dc = slept v ++ tail → forallb is_clock tail = true →
            dc = [] ∨ ∃ v' tail', Some v = Some v' ∧ dc = slept v' ++ tail' ∧
                                   forallb is_clock tail' = true)
    by (intros; right; eauto).
  destruct (py_eq v (SInt 2)).
  - cbn [resume]. rewrite fetch_and_save_run.
    destruct (fetched a res _) as [o' d'] eqn:Hf. intros [= <- <-].
    exists (slept v), d'. split; [done|].
    split; [apply (Hshape _ []); by rewrite ?app_nil_r|auto].
  - destruct (num_gtb _ _).
    { intros [= <- <-]. eexists (slept v ++ [EvTime _]), []. rewrite app_nil_r.
      split; [done|]. split; [by (eapply Hshape; [reflexivity|])|by left]. }
    destruct (py_eq v (SInt 3)).
    { destruct (status !! "error"); intros [= <- <-];
        eexists (slept v ++ [EvTime _]), []; rewrite app_nil_r;
        (split; [done|]); (split; [by (eapply Hshape; [reflexivity|])|by left]). }
    cbn [resume]. destruct (_ ≫= _) as [o' d'] eqn:Hnext. intros [= <- <-].
    eexists (slept v ++ [EvTime _]), d'.
    split; [done|]. split; [by (eapply Hshape; [reflexivity|])|]. right; right. exact Hnext.
Qed.

(** Every sleep of the loop lasts three seconds and comes right after a
    status reply whose code is 0 or 1. *)
Lemma loop_at_sleep a res tc n : ∀ h o d pre s post,
  (poll_loop w a res tc n ≫= λ _, fetch_and_save w a res) h = (o, d) →
  d = pre ++ EvSleep s :: post →
  s = 3%Z ∧
  ∃ pre0 kw status v,
    pre = pre0 ++ [EvGetMovieStatus kw (Reply status)] ∧
    status !! "status" = Some v ∧ py_in v [SInt 0; SInt 1] = true.
Proof.
  induction n as [|m IH]; intros h o d pre s post Hrun ->.
  { cbn [poll_loop] in Hrun. rewrite out_of_fuel_bind in Hrun.
    injection Hrun as _ Hd. by destruct pre. }
  rewrite poll_loop_step in Hrun.
  destruct (res !! "id") as [id|]; [|injection Hrun as _ Hd; by destruct pre].
  destruct (res !! "token") as [token|]; [|injection Hrun as _ Hd; by destruct pre].
  cbn zeta in Hrun.
  destruct (getMovieStatus w h _) as [status|e].
  2:{ injection Hrun as _ Hd. by destruct pre as [|? [|]]. }
  destruct (after_poll a res tc status m _) as [o1 d1] eqn:Hafter.
  injection Hrun as -> Hd.
  destruct pre as [|e0 pre1]; [done|]. injection Hd as <- ->.
  apply after_poll_shape in Hafter as (dc & d2 & Hd & Hdc & Hd2).
  symmetry in Hd.
  assert (Hrest : ∀ tail pre2, forallb is_clock tail = true →
            tail ++ d2 = pre2 ++ EvSleep s :: post →
            ∃ pre3, pre2 = tail ++ pre3 ∧ s = 3%Z ∧
              ∃ pre0 kw status' v', pre3 = pre0 ++ [EvGetMovieStatus kw (Reply status')] ∧
                status' !! "status" = Some v' ∧ py_in v' [SInt 0; SInt 1] = true).
  { intros tail pre2 Htail Heq.
    destruct (split_after is_sleep tail d2 pre2 post (EvSleep s))
      as (pre3 & -> & ->); [by apply clock_no_sleep|done|done|].
    exists pre3. split; [done|].
    destruct Hd2 as [Hd2|[Hd2|Hd2]].
    - by destruct pre3.
    - apply fetched_events, fetch_no_sleep in Hd2.
      rewrite forallb_app in Hd2. by apply andb_prop in Hd2 as [_ Hd2].
    - exact (IH _ _ _ pre3 s post Hd2 eq_refl). }
  destruct Hdc as [->|(v & tail & Hv & -> & Htail)].
  - destruct (Hrest [] pre1 eq_refl Hd)
      as (pre3 & -> & -> & pre0 & kw & st' & v' & -> & Hv' & Hin').
    split; [done|]. eexists (_ :: pre0), kw, st', v'. done.
  - rewrite <- app_assoc in Hd. unfold slept in Hd.
    destruct (py_in v _) eqn:Hin; cbn [app] in Hd.
    + destruct pre1 as [|x pre2]; cbn [app] in Hd.
      * injection Hd as <- _. split; [done|]. eexists [], _, status, v. done.
      * injection Hd as <- Hd.
        destruct (Hrest tail pre2 Htail Hd)
          as (pre3 & -> & -> & pre0 & kw & st' & v' & -> & Hv' & Hin').
        split; [done|]. eexists (_ :: _ :: tail ++ pre0), kw, st', v'.
        split; [|done]. cbn [app]. by rewrite <- app_assoc.
    + destruct (Hrest tail pre1 Htail Hd)
        as (pre3 & -> & -> & pre0 & kw & st' & v' & -> & Hv' & Hin').
      split; [done|]. eexists (_ :: tail ++ pre0), kw, st', v'.
      split; [|done]. cbn [app]. by rewrite <- app_assoc.
Qed.

Lemma py_in_01_not_2 v : py_in v [SInt 0; SInt 1] = true → py_eq v (SInt 2) = false.
Proof.
  rewrite !py_in_cons. destruct v as [|[]|n|]; cbn; try done.
  destruct (Z.eqb_spec n 0), (Z.eqb_spec n 1), (Z.eqb_spec n 2); cbn; try done; lia.
Qed.

(** [fuel] only bounds how far a run is followed: a run that ended keeps
    its outcome and its events when it is followed for longer. *)
Lemma poll_loop_fuel_mono a res tc n : ∀ h (o : outcome unit) d,
  poll_loop w a res tc n h = (o, d) → o ≠ OutOfFuel →
  ∀ m, (n ≤ m)%nat → poll_loop w a res tc m h = (o, d).
Proof.
  induction n as [|n IH]; intros h o d Hrun Ho m Hle.
  { injection Hrun as <- _. done. }
  destruct m as [|m]; [lia|]. cbn [poll_loop] in *. rewrite bind_run in *.
  destruct (iteration w a res tc h) as [[[]| |] d1]; [|done..].
  destruct (poll_loop w a res tc n _) as [o2 d2] eqn:Hnext.
  injection Hrun as -> <-. rewrite (IH _ _ _ Hnext Ho m); [done|lia].
Qed.

Lemma run_fuel_mono a n m o tr :
  run w a n = (o, tr) → o ≠ OutOfFuel → (n ≤ m)%nat → run w a m = (o, tr).
Proof.
  rewrite !run_unfold. destruct (queueMovie w [] _) as [res|e]; [|done].
  cbn zeta. destruct (truthy _); [done|].
  rewrite !bind_run.
  destruct (poll_loop w a res _ n _) as [ol dl] eqn:Hloop.
  intros Hrun Ho Hle.
  assert (ol ≠ OutOfFuel) as Hol.
  { intros ->. injection Hrun as <- _. done. }
  by rewrite (poll_loop_fuel_mono _ _ _ _ _ _ _ Hloop Hol m Hle).
Qed.

(** *** The claims *)

(** C1, as the code has it.  In every iteration the deadline check of line
    108 comes after the sleep and after the test for status 2, but before
    the test for status 3.  A reply with status 2 leaves the loop without
    the clock being read, whatever the time, and the rest of the run is
    the fetch.  For any other status the clock is read; if the reading is
    past the deadline the run ends with the timeout error, also when the
    status is 3; if it is not, a status 3 ends the run with the error of
    the reply ([KeyError] if the reply has none). *)
Theorem deadline_check_after_complete_before_failed a fuel o pre kw status post v :
  run w a fuel = (o, pre ++ EvGetMovieStatus kw (Reply status) :: post) →
  status !! "status" = Some v →
  ∃ res t0 pre',
    pre = EvQueueMovie (input_params a) (Reply res) :: EvTime t0 :: pre' ∧
    (py_eq v (SInt 2) = true →
       forallb (λ e, negb (is_clock e)) post = true ∧
       fetched a res (pre ++ [EvGetMovieStatus kw (Reply status)]) = (o, post)) ∧
    (py_eq v (SInt 2) = false →
       ∃ t rest,
         post = slept v ++ EvTime t :: rest ∧
         (num_gtb t (deadline a t0) = true →
            o = Raised (RuntimeError (SStr (timeout_message (timeout a)))) ∧
            rest = []) ∧
         (num_gtb t (deadline a t0) = false → py_eq v (SInt 3) = true →
            o = Raised (match status !! "error" with
                        | Some e => RuntimeError e
                        | None => KeyError "error"
                        end) ∧
            rest = [])).
Proof.
  intros Hrun Hv.
  destruct (run_after_status _ _ _ _ _ _ _ _ Hrun Hv)
    as (res & id & token & t0 & pre' & n' & Hpre & _ & Hid & _ & _ & _ & Hcases).
  exists res, t0, pre'. split; [done|]. cbn zeta in Hcases.
  destruct (py_eq v (SInt 2)).
  - split; [|done]. intros _. split; [|done].
    apply fetched_events in Hcases. revert Hcases.
    apply forallb_weaken. by intros [].
  - split; [done|]. intros _.
    destruct Hcases as (rest & Hpost & Hcases). eexists _, rest. split; [done|].
    destruct (num_gtb _ _); [by split|]. split; [done|]. intros _ H3.
    by rewrite H3 in Hcases.
Qed.

(** C2, as the code has it.  A status reply with code 3 is the last call of
    the run: after it only the clock is read, the run ends by raising, and
    [downloadMovie] is not called anywhere in the run.  The error raised
    carries exactly the reply's [error] value when the clock reading is
    not past the deadline. *)
Theorem failed_status_raises_without_fetch a fuel o pre kw status post v :
  run w a fuel = (o, pre ++ EvGetMovieStatus kw (Reply status) :: post) →
  status !! "status" = Some v →
  py_eq v (SInt 3) = true →
  ∃ res t0 pre' t,
    pre = EvQueueMovie (input_params a) (Reply res) :: EvTime t0 :: pre' ∧
    post = [EvTime t] ∧
    List.filter is_download (pre ++ EvGetMovieStatus kw (Reply status) :: post) = [] ∧
    (∃ e, o = Raised e) ∧
    (num_gtb t (deadline a t0) = false →
       ∀ msg, status !! "error" = Some msg → o = Raised (RuntimeError msg)).
Proof.
  intros Hrun Hv H3.
  destruct (run_after_status _ _ _ _ _ _ _ _ Hrun Hv)
    as (res & id & token & t0 & pre' & n' & Hpre & Hloop & _ & _ & _ & _ & Hcases).
  cbn zeta in Hcases. rewrite H3 in Hcases.
  assert (slept v = []) as Hs by by apply py_eq_3 in H3 as ->.
  assert (py_eq v (SInt 2) = false) as H2 by by apply py_eq_3 in H3 as ->.
  rewrite H2, Hs in Hcases. destruct Hcases as (rest & Hpost & Hcases).
  cbn [app] in Hpost. eexists res, t0, pre', _.
  assert (rest = [] ∧ ∃ e, o = Raised e) as [-> Ho].
  { destruct (num_gtb _ _); destruct Hcases as [-> ->]; eauto. }
  split; [done|]. split; [done|]. split.
  { subst pre post. cbn. rewrite List.filter_app. cbn.
    by rewrite (loop_no_download pre'). }
  split; [done|]. intros Hlate msg Hmsg.
  rewrite Hlate, Hmsg in Hcases. by destruct Hcases.
Qed.

(** C3.  A status reply with code 2 ends the polling at once: what follows
    it is the call of [downloadMovie] and nothing of the loop (no further
    status call, no sleep, no clock reading), and the whole run calls
    [downloadMovie] exactly once. *)
Theorem complete_status_fetches_once a fuel o pre kw status post v :
  run w a fuel = (o, pre ++ EvGetMovieStatus kw (Reply status) :: post) →
  status !! "status" = Some v →
  py_eq v (SInt 2) = true →
  (∃ dkw r rest, post = EvDownloadMovie dkw r :: rest) ∧
  forallb (λ e, negb (loop_event e)) post = true ∧
  length (List.filter is_download (pre ++ EvGetMovieStatus kw (Reply status) :: post)) = 1.
Proof.
  intros Hrun Hv H2.
  destruct (run_after_status _ _ _ _ _ _ _ _ Hrun Hv)
    as (res & id & token & t0 & pre' & n' & Hpre & Hloop & Hid & _ & _ & _ & Hcases).
  cbn zeta in Hcases. rewrite H2 in Hcases.
  assert (List.filter is_download pre = []) as Hnone.
  { subst pre. cbn. by apply loop_no_download. }
  rewrite List.filter_app, Hnone. cbn.
  unfold fetched in Hcases. rewrite Hid in Hcases.
  destruct (downloadMovie w _ _); injection Hcases as _ <-; cbn; eauto 7.
Qed.

(** C4.  When the reply of [queueMovie] has a non-empty string in its
    [error] field, the run raises [RuntimeError] with exactly that string
    and the call of [queueMovie] is its only event: neither
    [getMovieStatus] nor [downloadMovie] is called. *)
Theorem submit_error_raises_before_polling a fuel res msg :
  queueMovie w [] (input_params a) = Reply res →
  res !! "error" = Some (SStr msg) →
  msg ≠ EmptyString →
  run w a fuel =
    (Raised (RuntimeError (SStr msg)), [EvQueueMovie (input_params a) (Reply res)]).
Proof.
  intros Hq Herr Hmsg. rewrite run_unfold, Hq. cbn zeta.
  unfold dict_get. rewrite Herr. cbn. by rewrite bool_decide_eq_false_2.
Qed.



(** C6, as the code has it.  Every call of [downloadMovie] in a run has
    exactly three keyword arguments: the [id] of the submit reply, the
    [format] and [hq].  The token of the submit reply is not among
    them. *)
Theorem fetch_request_is_id_format_hq a fuel o tr kw r :
  run w a fuel = (o, tr) →
  In (EvDownloadMovie kw r) tr →
  ∃ res id rest,
    tr = EvQueueMovie (input_params a) (Reply res) :: rest ∧
    res !! "id" = Some id ∧
    kw = <["id" := VScalar id]> (<["format" := vstr (format a)]>
           (<["hq" := vbool (hq a)]> ∅)) ∧
    kw !! "token" = None.
Proof.
  intros Hrun Hin. rewrite run_unfold in Hrun.
  destruct (queueMovie w [] _) as [res|e];
    [|injection Hrun as _ <-; by destruct Hin].
  cbn zeta in Hrun.
  destruct (truthy _); [injection Hrun as _ <-; by destruct Hin|].
  destruct (_ ≫= _) as [o1 d1] eqn:Hloop. injection Hrun as -> <-.
  apply loop_then_fetch in Hloop as (dl & df & -> & Hdl & Hdf).
  destruct Hin as [[=]|[[=]|Hin]].
  apply in_app_or in Hin as [Hin|Hin].
  { rewrite forallb_forall in Hdl. by apply Hdl in Hin. }
  destruct Hdf as [[-> _]|Hdf]; [done|].
  unfold fetched in Hdf.
  destruct (res !! "id") as [id|] eqn:Hid; [|injection Hdf as _ <-; done].
  assert (kw = download_kwargs a id) as ->.
  { destruct (downloadMovie w _ _); injection Hdf as _ <-.
    - by destruct Hin as [[=]|[[=]|[]]].
    - by destruct Hin as [[=]|[]]. }
  exists res, id. eexists. split; [done|]. split; [done|]. split; [done|].
  unfold download_kwargs. by rewrite !lookup_insert_ne.
Qed.

(** C7.  A status reply whose code is none of 0, 1, 2 and 3 is followed by
    the clock reading without a sleep; when that reading is not past the
    deadline the iteration neither leaves the loop nor raises, and the
    next event of the run is another status call with the same arguments
    (a run followed for [fuel] iterations stops there when this was the
    last of them). *)
Theorem unknown_status_polls_again a fuel o pre kw status post v :
  run w a fuel = (o, pre ++ EvGetMovieStatus kw (Reply status) :: post) →
  status !! "status" = Some v →
  py_in v [SInt 0; SInt 1; SInt 2; SInt 3] = false →
  ∃ res t0 pre' t rest,
    pre = EvQueueMovie (input_params a) (Reply res) :: EvTime t0 :: pre' ∧
    post = EvTime t :: rest ∧
    (num_gtb t (deadline a t0) = false →
       (S (polls_so_far pre) < fuel ∧
        ∃ r' rest', rest = EvGetMovieStatus kw r' :: rest') ∨
       (fuel = S (polls_so_far pre) ∧ o = OutOfFuel ∧ rest = [])).
Proof.
  intros Hrun Hv Hnot.
  rewrite !py_in_cons in Hnot.
  apply orb_false_elim in Hnot as [H0 Hnot]. apply orb_false_elim in Hnot as [H1 Hnot].
  apply orb_false_elim in Hnot as [H2 Hnot]. apply orb_false_elim in Hnot as [H3 _].
  destruct (run_after_status _ _ _ _ _ _ _ _ Hrun Hv)
    as (res & id & token & t0 & pre' & n' & Hpre & Hloop & Hid & Htok & Hkw & Hfuel & Hcases).
  cbn zeta in Hcases. rewrite H2, H3 in Hcases.
  assert (slept v = []) as Hs.
  { unfold slept. by rewrite !py_in_cons, H0, H1. }
  rewrite Hs in Hcases. destruct Hcases as (rest & Hpost & Hcases).
  cbn [app] in Hpost. eexists res, t0, pre', _, rest.
  split; [done|]. split; [done|]. intros Hlate. rewrite Hlate in Hcases.
  destruct n' as [|k].
  - right. cbn [poll_loop] in Hcases. rewrite out_of_fuel_bind in Hcases.
    injection Hcases as <- <-. by rewrite Nat.add_0_r in Hfuel.
  - left. split; [lia|].
    rewrite poll_loop_step, Hid, Htok in Hcases. cbn zeta in Hcases.
    rewrite <- Hkw in Hcases.
    destruct (getMovieStatus w _ _); [destruct (after_poll _ _ _ _ _ _)|];
      injection Hcases as _ <-; eauto.
Qed.

(** C8.  The keyword arguments of [queueMovie] do not depend on
    [overwrite], [filename], [hq] and [timeout]: changing these four
    parameters leaves [input_params] the same, none of the four names is a
    key of it, and every run starts with the one call of [queueMovie], on
    exactly these arguments. *)
Theorem policy_not_sent_to_queueMovie a overwrite' filename' hq' timeout' fuel :
  input_params (with_policy a overwrite' filename' hq' timeout') = input_params a ∧
  input_params a !! "overwrite" = None ∧ input_params a !! "filename" = None ∧
  input_params a !! "hq" = None ∧ input_params a !! "timeout" = None ∧
  ∃ r rest,
    (run w (with_policy a overwrite' filename' hq' timeout') fuel).2
      = EvQueueMovie (input_params a) r :: rest ∧
    forallb (λ e, negb (is_queue e)) rest = true.
Proof.
  assert (input_params (with_policy a overwrite' filename' hq' timeout') = input_params a)
    as Heq by by rewrite !input_params_bindings.
  split; [done|].
  do 4 (split;
    [unfold input_params;
     by rewrite ?(lookup_delete_ne (M:=gmap string)) by done; rewrite lookup_delete_eq|]).
  rewrite run_unfold, Heq.
  destruct (queueMovie w [] _) as [res|e]; [|by eexists _, []].
  cbn zeta. destruct (truthy _); [by eexists _, []|].
  destruct (_ ≫= _) as [o d] eqn:Hloop. eexists _, _. split; [done|].
  apply loop_then_fetch in Hloop as (dl & df & -> & Hdl & Hdf).
  cbn. rewrite forallb_app, (loop_no_queue dl Hdl). cbn.
  destruct Hdf as [[-> _]|Hdf]; [done|].
  by apply fetched_events, fetch_no_queue in Hdf.
Qed.

(** C9.  When a status reply has code 3 and the clock reading of that
    iteration is not past the deadline, the [error] field of the reply is
    read without a guard: with the field the run raises [RuntimeError] of
    its value, without it the lookup raises [KeyError]. *)
Theorem failed_status_reads_error_unguarded a fuel o pre kw status post v :
  run w a fuel = (o, pre ++ EvGetMovieStatus kw (Reply status) :: post) →
  status !! "status" = Some v →
  py_eq v (SInt 3) = true →
  ∃ res t0 pre' t,
    pre = EvQueueMovie (input_params a) (Reply res) :: EvTime t0 :: pre' ∧
    post = [EvTime t] ∧
    (num_gtb t (deadline a t0) = false →
       (∀ msg, status !! "error" = Some msg → o = Raised (RuntimeError msg)) ∧
       (status !! "error" = None → o = Raised (KeyError "error"))).
Proof.
  intros Hrun Hv H3.
  destruct (run_after_status _ _ _ _ _ _ _ _ Hrun Hv)
    as (res & id & token & t0 & pre' & n' & Hpre & Hloop & _ & _ & _ & _ & Hcases).
  cbn zeta in Hcases. rewrite H3 in Hcases.
  assert (slept v = []) as Hs by by apply py_eq_3 in H3 as ->.
  assert (py_eq v (SInt 2) = false) as H2 by by apply py_eq_3 in H3 as ->.
  rewrite H2, Hs in Hcases. destruct Hcases as (rest & Hpost & Hcases).
  cbn [app] in Hpost. eexists res, t0, pre', _.
  assert (rest = []) as ->.
  { by destruct (num_gtb _ _); destruct Hcases as [_ ->]. }
  split; [done|]. split; [done|]. intros Hlate. rewrite Hlate in Hcases.
  destruct Hcases as [-> _]. split.
  - by intros msg ->.
  - by intros ->.
Qed.

(** C10.  The three-second sleep happens exactly after the status replies
    with code 0 or 1.  After such a reply the next event is the sleep;
    after any other reply the next event is not a sleep, and for a code
    that is none of 0, 1, 2 and 3 the events up to the next status call
    are just the clock reading; and every sleep of a run lasts three
    seconds and comes right after a status reply with code 0 or 1. *)
Theorem sleep_exactly_after_status_0_or_1 a fuel o tr :
  run w a fuel = (o, tr) →
  (∀ pre kw status post v,
     tr = pre ++ EvGetMovieStatus kw (Reply status) :: post →
     status !! "status" = Some v →
     (py_in v [SInt 0; SInt 1] = true → ∃ rest, post = EvSleep 3 :: rest) ∧
     (py_in v [SInt 0; SInt 1] = false → ∀ s rest, post ≠ EvSleep s :: rest) ∧
     (py_in v [SInt 0; SInt 1; SInt 2; SInt 3] = false →
        ∀ between kw' r' post',
          post = between ++ EvGetMovieStatus kw' r' :: post' →
          forallb (λ e, negb (is_poll e)) between = true →
          ∃ t, between = [EvTime t])) ∧
  (∀ pre s post,
     tr = pre ++ EvSleep s :: post →
     s = 3%Z ∧
     ∃ pre0 kw status v,
       pre = pre0 ++ [EvGetMovieStatus kw (Reply status)] ∧
       status !! "status" = Some v ∧ py_in v [SInt 0; SInt 1] = true).
Proof.
  intros Hrun. split.
  - intros pre kw status post v -> Hv.
    destruct (run_after_status _ _ _ _ _ _ _ _ Hrun Hv)
      as (res & id & token & t0 & pre' & n' & Hpre & Hloop & Hid & Htok & Hkw & Hfuel & Hcases).
    cbn zeta in Hcases. split; [|split].
    + intros Hin. rewrite (py_in_01_not_2 v Hin) in Hcases.
      destruct Hcases as (rest & -> & _). unfold slept. rewrite Hin. by eexists.
    + intros Hin s rest ->. destruct (py_eq v (SInt 2)).
      * apply fetched_events in Hcases. done.
      * destruct Hcases as (rest' & Hpost & _). unfold slept in Hpost.
        by rewrite Hin in Hpost.
    + intros Hnot between kw' r' post' -> Hbetween.
      rewrite !py_in_cons in Hnot.
      apply orb_false_elim in Hnot as [H0 Hnot]. apply orb_false_elim in Hnot as [H1 Hnot].
      apply orb_false_elim in Hnot as [H2 Hnot]. apply orb_false_elim in Hnot as [H3 _].
      rewrite H2, H3 in Hcases.
      assert (slept v = []) as Hs.
      { unfold slept. by rewrite !py_in_cons, H0, H1. }
      rewrite Hs in Hcases. destruct Hcases as (rest & Hpost & Hcases).
      cbn [app] in Hpost.
      destruct between as [|x between]; [done|]. injection Hpost as -> Hpost.
      eexists. f_equal.
      assert (rest = [] ∨ ∃ kw2 r2 rest2, rest = EvGetMovieStatus kw2 r2 :: rest2)
        as [->|(kw2 & r2 & rest2 & ->)].
      { destruct (num_gtb _ _); [left; by destruct Hcases|].
        destruct n' as [|k].
        - cbn [poll_loop] in Hcases. rewrite out_of_fuel_bind in Hcases.
          left. by injection Hcases as _ <-.
        - rewrite poll_loop_step, Hid, Htok in Hcases. cbn zeta in Hcases.
          right. destruct (getMovieStatus w _ _); [destruct (after_poll _ _ _ _ _ _)|];
            injection Hcases as _ <-; eauto. }
      * by destruct between.
      * destruct between as [|y between]; [done|].
        injection Hpost as -> _. by cbn in Hbetween.
  - intros pre s post ->. rewrite run_unfold in Hrun.
    destruct (queueMovie w [] _) as [res|e];
      [|injection Hrun as _ Hd; by destruct pre as [|? [|]]].
    cbn zeta in Hrun.
    destruct (truthy _); [injection Hrun as _ Hd; by destruct pre as [|? [|]]|].
    destruct (_ ≫= _) as [o1 d1] eqn:Hloop. injection Hrun as -> Hd.
    destruct pre as [|e0 [|e1 pre']]; try done. injection Hd as <- <- ->.
    destruct (loop_at_sleep _ _ _ _ _ _ _ _ _ _ Hloop eq_refl)
      as (-> & pre0 & kw & status & v & -> & Hv & Hin).
    split; [done|]. by eexists (_ :: _ :: pre0), kw, status, v.
Qed.

(** *** Further properties of [createMovie] *)

(** The loop is left only on a reply with status 2, and then nothing was
    added after the reply. *)
Lemma classified_break a tc status h dc :
  classified a tc status h = (Returned Break, dc) →
  dc = [] ∧ ∃ v, status !! "status" = Some v ∧ py_eq v (SInt 2) = true.
Proof.
  unfold classified. destruct (status !! "status") as [v|]; [|done].
  destruct (py_eq v (SInt 2)) eqn:H2.
  - intros [= <-]. split; [|by exists v]. by apply py_eq_2 in H2 as ->.
  - destruct (num_gtb _ _); [done|]. destruct (py_eq v (SInt 3)); [|done].
    by destruct (status !! "error").
Qed.

(** [loop_then_fetch], with how the fetch was reached: the last event of
    the loop is a status reply with code 2. *)
Lemma loop_reaches_fetch a res tc n : ∀ h o d,
  (poll_loop w a res tc n ≫= λ _, fetch_and_save w a res) h = (o, d) →
  ∃ dl df,
    d = dl ++ df ∧ forallb loop_event dl = true ∧
    ((df = [] ∧ ∀ p, o ≠ Returned p) ∨
     (fetched a res (h ++ dl) = (o, df) ∧
      ∃ dl0 kw status v,
        dl = dl0 ++ [EvGetMovieStatus kw (Reply status)] ∧
        status !! "status" = Some v ∧ py_eq v (SInt 2) = true)).
Proof.
  induction n as [|m IH]; intros h o d Hrun.
  { cbn [poll_loop] in Hrun. rewrite out_of_fuel_bind in Hrun.
    injection Hrun as <- <-. exists [], []. auto. }
  rewrite poll_loop_step in Hrun.
  destruct (res !! "id") as [id|];
    [|injection Hrun as <- <-; exists [], []; auto].
  destruct (res !! "token") as [token|];
    [|injection Hrun as <- <-; exists [], []; auto].
  cbn zeta in Hrun.
  destruct (getMovieStatus w h _) as [status|e];
    [|injection Hrun as <- <-; eexists [_], []; auto].
  destruct (after_poll a res tc status m _) as [o1 d1] eqn:Hafter.
  injection Hrun as -> <-.
  unfold after_poll in Hafter. rewrite bind_run, classify_run in Hafter.
  destruct (classified a tc status _) as [oc dc] eqn:Hc.
  assert (Hdc : forallb loop_event dc = true).
  { apply classified_events in Hc. revert Hc. apply forallb_weaken.
    by intros []. }
  destruct oc as [c| |];
    [|injection Hafter as <- <-; eexists (_ :: dc), []; rewrite app_nil_r; auto..].
  destruct (resume a res tc c m _) as [o2 d2] eqn:Hres.
  injection Hafter as -> <-.
  destruct c; cbn [resume] in Hres.
  - destruct (IH _ _ _ Hres) as (dl & df & -> & Hdl & Hdf).
    eexists (_ :: dc ++ dl), df.
    split; [cbn [app]; by rewrite <- ?app_assoc|].
    split; [cbn; by rewrite forallb_app, Hdc, Hdl|].
    destruct Hdf as [Hdf|[Hdf (dl0 & kw & st' & v & -> & Hv & H2)]]; [by left|right].
    split.
    + rewrite <- Hdf. f_equal. rewrite <- !app_assoc. by cbn [app].
    + eexists (_ :: dc ++ dl0), kw, st', v. split; [|done].
      cbn [app]. by rewrite <- app_assoc.
  - apply classified_break in Hc as [-> (v & Hv & H2)].
    rewrite fetch_and_save_run, app_nil_r in Hres.
    eexists [_], d2. split; [done|]. split; [done|]. right. split; [done|].
    by eexists [], _, status, v.
Qed.

(** The stages of a run: the submission, then the loop, then the fetch. *)
Lemma run_stages a fuel o tr :
  run w a fuel = (o, tr) →
  (∃ e, tr = [EvQueueMovie (input_params a) (Throws e)] ∧ o = Raised e) ∨
  ∃ res,
    queueMovie w [] (input_params a) = Reply res ∧
    ((tr = [EvQueueMovie (input_params a) (Reply res)] ∧ ∀ p, o ≠ Returned p) ∨
     ∃ dl df,
       tr = EvQueueMovie (input_params a) (Reply res) :: dl ++ df ∧
       forallb loop_event dl = true ∧
       ((df = [] ∧ ∀ p, o ≠ Returned p) ∨
        (fetched a res (EvQueueMovie (input_params a) (Reply res) :: dl) = (o, df) ∧
         ∃ dl0 kw status v,
           dl = dl0 ++ [EvGetMovieStatus kw (Reply status)] ∧
           status !! "status" = Some v ∧ py_eq v (SInt 2) = true))).
Proof.
  rewrite run_unfold.
  destruct (queueMovie w [] _) as [res|e]; [|intros [= <- <-]; left; eauto].
  cbn zeta. intros Hrun. right. exists res. split; [done|].
  destruct (truthy _).
  { injection Hrun as <- <-. left. split; [done|]. by destruct (res !! "error"). }
  destruct (_ ≫= _) as [o1 d1] eqn:Hloop. injection Hrun as -> <-.
  apply loop_reaches_fetch in Hloop as (dl & df & -> & Hdl & Hdf).
  right. eexists (_ :: dl), df. split; [done|]. split; [done|].
  destruct Hdf as [Hdf|[Hdf (dl0 & kw & st' & v & -> & Hv & H2)]]; [by left|right].
  split; [done|]. by eexists (_ :: dl0), kw, st', v.
Qed.

Lemma loop_not_fetch (l : list (event F)) :
  forallb loop_event l = true → forallb (λ e, negb (fetch_event e)) l = true.
Proof. apply forallb_weaken. by intros []. Qed.

(** Case analysis on a list that an equation bounds to two elements. *)
Ltac short_list l :=
  destruct l as [|? l]; [|destruct l as [|? l]; [|destruct l as [|? l]]];
  simplify_eq/=.

(** Where a run stands at a call of [downloadMovie] or [save_file]: the
    loop was left on a status reply with code 2, and the rest of the run is
    the fetch. *)
Lemma run_at_fetch_event a fuel o pre e post :
  run w a fuel = (o, pre ++ e :: post) →
  fetch_event e = true →
  ∃ res id dl0 kw status v pre',
    res !! "id" = Some id ∧
    pre = (EvQueueMovie (input_params a) (Reply res)
             :: dl0 ++ [EvGetMovieStatus kw (Reply status)]) ++ pre' ∧
    forallb loop_event dl0 = true ∧
    status !! "status" = Some v ∧ py_eq v (SInt 2) = true ∧
    fetched a res (EvQueueMovie (input_params a) (Reply res)
                     :: dl0 ++ [EvGetMovieStatus kw (Reply status)])
      = (o, pre' ++ e :: post).
Proof.
  intros Hrun He.
  destruct (run_stages _ _ _ _ Hrun) as [(x & Htr & _)|(res & Hq & [[Htr _]|Hloop])].
  - destruct pre as [|? pre]; [|destruct pre]; simplify_eq/=.
  - destruct pre as [|? pre]; [|destruct pre]; simplify_eq/=.
  - destruct Hloop as (dl & df & Htr & Hdl & Hdf).
    destruct (split_after fetch_event
                (EvQueueMovie (input_params a) (Reply res) :: dl) df pre post e)
      as (pre' & -> & ->); [cbn; by apply loop_not_fetch|done|done|].
    destruct Hdf as [[Hdf _]|[Hdf (dl0 & kw & st' & v & -> & Hv & H2)]].
    { by destruct pre'. }
    assert (∃ id, res !! "id" = Some id) as [id Hid].
    { unfold fetched in Hdf. destruct (res !! "id"); [eauto|].
      injection Hdf as _ Hd. by destruct pre'. }
    rewrite forallb_app in Hdl. apply andb_prop in Hdl as [Hdl0 _].
    by exists res, id, dl0, kw, st', v, pre'.
Qed.

(** X1.  The calls of a run are made in the order of the protocol: one
    call of [queueMovie]; then only clock readings, status calls and
    sleeps; then at most one call of [downloadMovie], followed, when it
    came back, by one call of [save_file]. *)
Theorem run_follows_protocol a fuel o tr :
  run w a fuel = (o, tr) →
  ∃ r dl df,
    tr = EvQueueMovie (input_params a) r :: dl ++ df ∧
    forallb loop_event dl = true ∧
    (df = [] ∨
     (∃ kw e, df = [EvDownloadMovie kw (Throws e)]) ∨
     (∃ kw data skw sr, df = [EvDownloadMovie kw (Reply data); EvSaveFile skw sr])).
Proof.
  intros Hrun.
  destruct (run_stages _ _ _ _ Hrun) as [(x & -> & _)|(res & Hq & [[-> _]|Hloop])].
  - eexists _, [], []. auto.
  - eexists _, [], []. auto.
  - destruct Hloop as (dl & df & -> & Hdl & Hdf). exists (Reply res), dl, df.
    split; [done|]. split; [done|].
    destruct Hdf as [[-> _]|[Hdf _]]; [by left|].
    unfold fetched in Hdf. destruct (res !! "id"); [|injection Hdf as _ <-; by left].
    destruct (downloadMovie w _ _); injection Hdf as _ <-; right; eauto 6.
Qed.

(** X2.  No exception of a collaborator is swallowed or retried: when a
    call of [queueMovie], [getMovieStatus], [downloadMovie] or [save_file]
    raises, [createMovie] raises the same exception, and that call is the
    last event of the run. *)
Theorem collaborator_exception_ends_run a fuel o pre e post x :
  run w a fuel = (o, pre ++ e :: post) →
  thrown e = Some x →
  o = Raised x ∧ post = [].
Proof.
  intros Hrun Hx.
  destruct e as [kw [|y]|kw [|y]| | |kw [|y]|kw [|y]]; try done;
    injection Hx as ->.
  - destruct (run_stages _ _ _ _ Hrun) as [(y & Htr & ->)|(res & Hq & [[Htr _]|Hloop])].
    + destruct pre as [|? pre]; [|destruct pre]; by simplify_eq/=.
    + destruct pre as [|? pre]; [|destruct pre]; by simplify_eq/=.
    + destruct Hloop as (dl & df & Htr & Hdl & Hdf).
      destruct pre as [|? pre]; [done|]. injection Htr as -> Htr.
      assert (forallb (λ e, negb (is_queue e)) (dl ++ df) = true) as Hnq.
      { rewrite forallb_app, (loop_no_queue dl Hdl). cbn.
        destruct Hdf as [[-> _]|[Hdf _]]; [done|].
        by apply fetched_events, fetch_no_queue in Hdf. }
      rewrite <- Htr, forallb_app in Hnq. by apply andb_prop in Hnq as [_ Hnq].
  - by destruct (run_at_poll _ _ _ _ _ _ _ Hrun)
      as (res & id & token & pre' & n' & _ & _ & _ & _ & _ & _ & _ & _ & _ & Hend).
  - destruct (run_at_fetch_event _ _ _ _ _ _ Hrun eq_refl)
      as (res & id & dl0 & pkw & st' & v & pre' & Hid & -> & _ & Hv & H2 & Hf).
    unfold fetched in Hf. rewrite Hid in Hf.
    destruct (downloadMovie w _ _); injection Hf as <- Hd; by short_list pre'.
  - destruct (run_at_fetch_event _ _ _ _ _ _ Hrun eq_refl)
      as (res & id & dl0 & pkw & st' & v & pre' & Hid & -> & _ & Hv & H2 & Hf).
    unfold fetched in Hf. rewrite Hid in Hf.
    destruct (downloadMovie w _ _) as [data|z]; cbn zeta in Hf;
      [destruct (save_file w _ _) as [[]|z] eqn:Hsave|];
      injection Hf as <- Hd; by short_list pre'.
Qed.

(** X3.  The test of line 95 is Python truthiness of [res.get("error")]:
    any truthy value of the field, string or not, is raised as the
    argument of [RuntimeError] with no further call; a field that is
    missing, [None], the empty string, [0] or [False] does not stop the
    run, and the clock is read next. *)
Theorem submit_error_is_tested_for_truth a fuel res :
  queueMovie w [] (input_params a) = Reply res →
  (∀ e, res !! "error" = Some e → truthy e = true →
     run w a fuel =
       (Raised (RuntimeError e), [EvQueueMovie (input_params a) (Reply res)])) ∧
  (res !! "error" = None ∨ res !! "error" = Some SNone ∨
   res !! "error" = Some (SStr EmptyString) ∨ res !! "error" = Some (SInt 0) ∨
   res !! "error" = Some (SBool false) →
     ∃ rest,
       (run w a fuel).2 =
         EvQueueMovie (input_params a) (Reply res)
           :: EvTime (time_time w [EvQueueMovie (input_params a) (Reply res)]) :: rest).
Proof.
  intros Hq. split.
  - intros e He Ht. rewrite run_unfold, Hq. cbn zeta. unfold dict_get.
    by rewrite He; cbn; rewrite Ht.
  - intros Hfalsy. rewrite run_unfold, Hq. cbn zeta.
    assert (truthy (dict_get res "error") = false) as ->.
    { unfold dict_get. by destruct Hfalsy as [->|[->|[->|[->| ->]]]]. }
    destruct (_ ≫= _) as [o d]. by exists d.
Qed.

(** X4.  When the submit reply has no (truthy) error but lacks [id], or
    has [id] and lacks [token], the run raises [KeyError] for the first
    missing key right after the clock reading of line 97, before any
    status call. *)
Theorem submit_reply_without_handle_raises_KeyError a fuel res :
  queueMovie w [] (input_params a) = Reply res →
  truthy (dict_get res "error") = false →
  (0 < fuel)%nat →
  res !! "id" = None ∨ res !! "token" = None →
  run w a fuel =
    (Raised (KeyError (match res !! "id" with None => "id" | Some _ => "token" end)),
     [EvQueueMovie (input_params a) (Reply res);
      EvTime (time_time w [EvQueueMovie (input_params a) (Reply res)])]).
Proof.
  intros Hq Herr Hfuel Hmiss. rewrite run_unfold, Hq. cbn zeta. rewrite Herr.
  destruct fuel as [|n]; [lia|]. rewrite poll_loop_step.
  destruct (res !! "id"); [|done].
  destruct Hmiss as [[=]| ->]. done.
Qed.

(** X5.  Every call of [getMovieStatus] in a run has the same three
    keyword arguments: the [id] and the [token] of the submit reply and
    the [format]. *)
Theorem status_request_is_id_format_token a fuel o tr kw r :
  run w a fuel = (o, tr) →
  In (EvGetMovieStatus kw r) tr →
  ∃ res id token rest,
    tr = EvQueueMovie (input_params a) (Reply res) :: rest ∧
    res !! "id" = Some id ∧ res !! "token" = Some token ∧
    kw = <["id" := VScalar id]> (<["format" := vstr (format a)]>
           (<["token" := VScalar token]> ∅)).
Proof.
  intros Hrun (pre & post & ->)%in_split.
  destruct (run_at_poll _ _ _ _ _ _ _ Hrun)
    as (res & id & token & pre' & n' & _ & _ & -> & _ & Hid & Htok & -> & _).
  by eexists res, id, token, _.
Qed.

(** X6.  The deadline is not looked at before the first status call: once
    the submission is accepted with a handle, [getMovieStatus] is called
    at least once, whatever the value of [timeout]. *)
Theorem first_status_call_is_unconditional a fuel res id token :
  queueMovie w [] (input_params a) = Reply res →
  truthy (dict_get res "error") = false →
  res !! "id" = Some id → res !! "token" = Some token →
  (0 < fuel)%nat →
  ∃ r rest,
    (run w a fuel).2 =
      EvQueueMovie (input_params a) (Reply res)
        :: EvTime (time_time w [EvQueueMovie (input_params a) (Reply res)])
        :: EvGetMovieStatus (status_kwargs a id token) r :: rest.
Proof.
  intros Hq Herr Hid Htok Hfuel. rewrite run_unfold, Hq. cbn zeta. rewrite Herr.
  destruct fuel as [|n]; [lia|]. rewrite poll_loop_step, Hid, Htok. cbn zeta.
  destruct (getMovieStatus w _ _); [destruct (after_poll _ _ _ _ _ _)|]; eauto.
Qed.

(** X7.  A status reply without a [status] field raises [KeyError] at
    line 104: there is no sleep and no clock reading after it. *)
Theorem status_reply_without_status_raises_KeyError a fuel o pre kw status post :
  run w a fuel = (o, pre ++ EvGetMovieStatus kw (Reply status) :: post) →
  status !! "status" = None →
  o = Raised (KeyError "status") ∧ post = [].
Proof.
  intros Hrun Hv.
  destruct (run_at_poll _ _ _ _ _ _ _ Hrun)
    as (res & id & token & pre' & n' & _ & _ & _ & _ & _ & _ & _ & _ & _ & Hafter).
  unfold after_poll in Hafter. rewrite bind_run, classify_run in Hafter.
  unfold classified in Hafter. rewrite Hv in Hafter. by injection Hafter as <- <-.
Qed.

(** X8.  The loop has no iteration cap.  While every status reply has a
    status that is neither 2 nor 3 and no clock reading is past the
    deadline, the run goes on: followed for any number of iterations it
    has made that many status calls, is still polling, and has fetched
    and saved nothing. *)
Theorem pending_job_is_polled_without_bound a res id token fuel :
  queueMovie w [] (input_params a) = Reply res →
  truthy (dict_get res "error") = false →
  res !! "id" = Some id → res !! "token" = Some token →
  (∀ h kw, ∃ status v,
     getMovieStatus w h kw = Reply status ∧ status !! "status" = Some v ∧
     py_eq v (SInt 2) = false ∧ py_eq v (SInt 3) = false) →
  (∀ h, num_gtb (time_time w h)
          (deadline a (time_time w [EvQueueMovie (input_params a) (Reply res)])) = false) →
  ∃ tr,
    run w a fuel = (OutOfFuel, tr) ∧
    polls_so_far tr = fuel ∧
    forallb (λ e, negb (fetch_event e)) tr = true.
Proof.
  intros Hq Herr Hid Htok Hpoll Hclock.
  rewrite run_unfold, Hq. cbn zeta. rewrite Herr.
  set (tc := deadline a _) in *.
  assert (Hloop : ∀ n h, ∃ d,
    (poll_loop w a res tc n ≫= λ _, fetch_and_save w a res) h = (OutOfFuel, d) ∧
    polls_so_far d = n ∧ forallb loop_event d = true).
  { induction n as [|n IH]; intros h.
    { exists []. by cbn [poll_loop]; rewrite out_of_fuel_bind. }
    rewrite poll_loop_step, Hid, Htok. cbn zeta.
    destruct (Hpoll h (status_kwargs a id token)) as (st' & v & -> & Hv & H2 & H3).
    unfold after_poll. rewrite bind_run, classify_run. unfold classified.
    rewrite Hv, H2, Hclock, H3. cbn [resume].
    destruct (IH ((h ++ [EvGetMovieStatus (status_kwargs a id token) (Reply st')])
                    ++ slept v ++ [EvTime (time_time w
                         ((h ++ [EvGetMovieStatus (status_kwargs a id token) (Reply st')])
                            ++ slept v))]))
      as (d & -> & Hn & Hd).
    eexists. split; [done|]. split.
    - rewrite polls_so_far_poll, polls_so_far_app, Hn.
      rewrite (polls_so_far_none (slept v ++ _)); [done|].
      unfold slept. by destruct (py_in v _).
    - cbn. rewrite !forallb_app, Hd. unfold slept. by destruct (py_in v _). }
  destruct (Hloop fuel [EvQueueMovie (input_params a) (Reply res);
                        EvTime (time_time w [EvQueueMovie (input_params a) (Reply res)])])
    as (d & -> & Hn & Hd).
  eexists. split; [done|]. split; [done|]. cbn. by apply loop_not_fetch.
Qed.

(** X9.  [downloadMovie] is called only right after a status reply with
    code 2: the event before any call of it is such a reply. *)
Theorem download_only_after_complete a fuel o pre kw r post :
  run w a fuel = (o, pre ++ EvDownloadMovie kw r :: post) →
  ∃ pre0 pkw status v,
    pre = pre0 ++ [EvGetMovieStatus pkw (Reply status)] ∧
    status !! "status" = Some v ∧ py_eq v (SInt 2) = true.
Proof.
  intros Hrun.
  destruct (run_at_fetch_event _ _ _ _ _ _ Hrun eq_refl)
    as (res & id & dl0 & pkw & st' & v & pre' & Hid & -> & _ & Hv & H2 & Hf).
  unfold fetched in Hf. rewrite Hid in Hf.
  assert (pre' = []) as ->.
  { destruct (downloadMovie w _ _); injection Hf as _ Hd; by short_list pre'. }
  rewrite app_nil_r. by eexists (_ :: dl0), pkw, st', v.
Qed.

(** X10.  [save_file] is called right after the call of [downloadMovie]
    that came back, with exactly the bytes that call returned, the
    resolved file name and the caller's [overwrite] flag, and it is the
    last call of the run. *)
Theorem save_file_gets_downloaded_bytes a fuel o pre skw sr post :
  run w a fuel = (o, pre ++ EvSaveFile skw sr :: post) →
  ∃ res id data pre0,
    res !! "id" = Some id ∧
    pre = EvQueueMovie (input_params a) (Reply res)
            :: pre0 ++ [EvDownloadMovie (download_kwargs a id) (Reply data)] ∧
    skw = <["data" := VBytes data]> (<["filename" := vstr (saved_name a id)]>
            (<["overwrite" := vbool (overwrite a)]> ∅)) ∧
    post = [].
Proof.
  intros Hrun.
  destruct (run_at_fetch_event _ _ _ _ _ _ Hrun eq_refl)
    as (res & id & dl0 & pkw & st' & v & pre' & Hid & -> & _ & Hv & H2 & Hf).
  unfold fetched in Hf. rewrite Hid in Hf.
  destruct (downloadMovie w _ _) as [data|e]; injection Hf as _ Hd;
    short_list pre'.
  by eexists res, id, data, (dl0 ++ [_]).
Qed.

Lemma py_in_01_not_3 v : py_in v [SInt 0; SInt 1] = true → py_eq v (SInt 3) = false.
Proof.
  rewrite !py_in_cons. destruct v as [|[]|n|]; cbn; try done.
  destruct (Z.eqb_spec n 0), (Z.eqb_spec n 1), (Z.eqb_spec n 3); cbn; try done; lia.
Qed.

(** X11.  A status reply with code 0 or 1 is followed by the sleep of
    three seconds and then by the clock reading, taken after the sleep;
    when that reading is not past the deadline the next event is another
    status call with the same arguments (a run followed for [fuel]
    iterations stops there when this was the last of them). *)
Theorem pending_status_sleeps_then_polls_again a fuel o pre kw status post v :
  run w a fuel = (o, pre ++ EvGetMovieStatus kw (Reply status) :: post) →
  status !! "status" = Some v →
  py_in v [SInt 0; SInt 1] = true →
  ∃ res t0 pre' rest,
    let t := time_time w (pre ++ [EvGetMovieStatus kw (Reply status); EvSleep 3]) in
    pre = EvQueueMovie (input_params a) (Reply res) :: EvTime t0 :: pre' ∧
    post = EvSleep 3 :: EvTime t :: rest ∧
    (num_gtb t (deadline a t0) = false →
       (S (polls_so_far pre) < fuel ∧
        ∃ r' rest', rest = EvGetMovieStatus kw r' :: rest') ∨
       (fuel = S (polls_so_far pre) ∧ o = OutOfFuel ∧ rest = [])).
Proof.
  intros Hrun Hv Hin.
  destruct (run_after_status _ _ _ _ _ _ _ _ Hrun Hv)
    as (res & id & token & t0 & pre' & n' & Hpre & Hloop & Hid & Htok & Hkw & Hfuel & Hcases).
  cbn zeta in Hcases.
  rewrite (py_in_01_not_2 v Hin), (py_in_01_not_3 v Hin) in Hcases.
  assert (slept v = [EvSleep 3]) as Hs by (unfold slept; by rewrite Hin).
  rewrite Hs in Hcases. destruct Hcases as (rest & Hpost & Hcases).
  rewrite <- !app_assoc in Hpost, Hcases. cbn [app] in Hpost, Hcases.
  exists res, t0, pre', rest. cbn zeta.
  split; [done|]. split; [done|]. intros Hlate. rewrite Hlate in Hcases.
  destruct n' as [|k].
  - right. cbn [poll_loop] in Hcases. rewrite out_of_fuel_bind in Hcases.
    injection Hcases as <- <-. by rewrite Nat.add_0_r in Hfuel.
  - left. split; [lia|].
    rewrite poll_loop_step, Hid, Htok in Hcases. cbn zeta in Hcases.
    rewrite <- Hkw in Hcases.
    destruct (getMovieStatus w _ _); [destruct (after_poll _ _ _ _ _ _)|];
      injection Hcases as _ <-; eauto.
Qed.

(** X12.  [createMovie] returns only after a status reply with code 2: a
    run that returns ends with that reply, the call of [downloadMovie]
    and the call of [save_file], both of which came back. *)
Theorem returns_only_after_complete a fuel p tr :
  run w a fuel = (Returned p, tr) →
  ∃ pre kw status v dkw data skw,
    tr = pre ++ [EvGetMovieStatus kw (Reply status);
                 EvDownloadMovie dkw (Reply data); EvSaveFile skw (Reply ())] ∧
    status !! "status" = Some v ∧ py_eq v (SInt 2) = true.
Proof.
  intros Hrun.
  destruct (run_stages _ _ _ _ Hrun) as [(x & _ & [=])|(res & Hq & [[_ Ho]|Hloop])].
  { by destruct (Ho p). }
  destruct Hloop as (dl & df & -> & Hdl & [[_ Ho]|[Hf (dl0 & kw & st' & v & -> & Hv & H2)]]).
  { by destruct (Ho p). }
  unfold fetched in Hf. destruct (res !! "id") as [id|]; [|done].
  destruct (downloadMovie w _ _) as [data|x]; [|done]. cbn zeta in Hf.
  destruct (save_file w _ _) as [[]|x]; [|done]. injection Hf as _ <-.
  eexists (_ :: dl0), kw, st', v, _, data, _. split; [|done].
  cbn [app]. by rewrite <- app_assoc.
Qed.

End Properties.

(** ** Concrete runs *)

Example run_complete :
  run w_complete example_args 4 =
    (Returned (mkPath "42_2024-01-01_2024-01-02.mp4"),
     [submit_ev; EvTime 100%Z;
      poll_ev (st 0); EvSleep 3; EvTime 103%Z;
      poll_ev (st 1); EvSleep 3; EvTime 106%Z;
      poll_ev (st 7); EvTime 107%Z;
      poll_ev (st 2); download_ev; save_ev]).
Proof. reflexivity. Qed.

(** Followed for three iterations only, the same run is still polling. *)
Example run_complete_short :
  run w_complete example_args 3 =
    (OutOfFuel,
     [submit_ev; EvTime 100%Z;
      poll_ev (st 0); EvSleep 3; EvTime 103%Z;
      poll_ev (st 1); EvSleep 3; EvTime 106%Z;
      poll_ev (st 7); EvTime 107%Z]).
Proof. reflexivity. Qed.

Example run_named :
  (run w_quick named_args 1).1 = Returned (mkPath "movie.webm").
Proof. reflexivity. Qed.

Example run_failed :
  run w_failed example_args 2 =
    (Raised (RuntimeError (SStr "render failed")),
     [submit_ev; EvTime 100%Z;
      poll_ev (st 0); EvSleep 3; EvTime 103%Z;
      poll_ev (failed "render failed"); EvTime 106%Z]).
Proof. reflexivity. Qed.

(** C1, counterexample to the claim as stated: a status 3 read when the
    clock is past the deadline does not determine the outcome; the run
    ends with the timeout error, not with the message of the service. *)
Lemma failed_after_deadline_times_out :
  run w_failed_late example_args 1 =
    (Raised (RuntimeError (SStr "Exceeded timeout of 5 minutes.")),
     [submit_ev; EvTime 100%Z; poll_ev (failed "render failed"); EvTime 401%Z]) ∧
  failed "render failed" !! "status" = Some (SInt 3) ∧
  num_gtb 401%Z (deadline example_args 100%Z) = true ∧
  (run w_failed_late example_args 1).1 ≠ Raised (RuntimeError (SStr "render failed")).
Proof. repeat split; try reflexivity. discriminate. Qed.

Lemma deadline_check_after_complete_before_failed_witness :
  ∃ res t0 pre',
    before_failed = EvQueueMovie (input_params example_args) (Reply res) :: EvTime t0 :: pre' ∧
    (py_eq (SInt 3) (SInt 2) = true →
       forallb (λ e, negb (is_clock e)) [EvTime 106%Z] = true ∧
       fetched w_failed example_args res
         (before_failed ++ [EvGetMovieStatus poll_kw (Reply (failed "render failed"))])
         = (render_failed, [EvTime 106%Z])) ∧
    (py_eq (SInt 3) (SInt 2) = false →
       ∃ t rest,
         [EvTime 106%Z] = slept (SInt 3) ++ EvTime t :: rest ∧
         (num_gtb t (deadline example_args t0) = true →
            render_failed
              = Raised (RuntimeError (SStr (timeout_message (timeout example_args)))) ∧
            rest = []) ∧
         (num_gtb t (deadline example_args t0) = false → py_eq (SInt 3) (SInt 3) = true →
            render_failed
              = Raised (match failed "render failed" !! "error" with
                        | Some e => RuntimeError e
                        | None => KeyError "error"
                        end) ∧
            rest = [])).
Proof.
  apply (deadline_check_after_complete_before_failed w_failed example_args 2
           render_failed before_failed poll_kw (failed "render failed")
           [EvTime 106%Z] (SInt 3));
    reflexivity.
Defined.

(** C2, counterexample to the claim as stated: a status call returns code
    3 with the message [out of disk], and the error raised is the timeout
    error. *)
Lemma failed_status_message_lost_after_deadline :
  run w_failed_later example_args 2 =
    (Raised (RuntimeError (SStr "Exceeded timeout of 5 minutes.")),
     [submit_ev; EvTime 0%Z; poll_ev (st 1); EvSleep 3; EvTime 3%Z;
      poll_ev (failed "out of disk"); EvTime 900%Z]) ∧
  failed "out of disk" !! "status" = Some (SInt 3) ∧
  failed "out of disk" !! "error" = Some (SStr "out of disk") ∧
  (run w_failed_later example_args 2).1 ≠ Raised (RuntimeError (SStr "out of disk")).
Proof. repeat split; try reflexivity. discriminate. Qed.

Lemma failed_status_raises_without_fetch_witness :
  ∃ res t0 pre' t,
    before_failed = EvQueueMovie (input_params example_args) (Reply res) :: EvTime t0 :: pre' ∧
    [EvTime 106%Z] = [EvTime t] ∧
    List.filter is_download
      (before_failed
         ++ EvGetMovieStatus poll_kw (Reply (failed "render failed")) :: [EvTime 106%Z]) = [] ∧
    (∃ e, render_failed = Raised e) ∧
    (num_gtb t (deadline example_args t0) = false →
       ∀ msg, failed "render failed" !! "error" = Some msg →
         render_failed = Raised (RuntimeError msg)).
Proof.
  apply (failed_status_raises_without_fetch w_failed example_args 2
           render_failed before_failed poll_kw (failed "render failed")
           [EvTime 106%Z] (SInt 3));
    reflexivity.
Defined.

Lemma complete_status_fetches_once_witness :
  (∃ dkw r rest, [download_ev; save_ev] = EvDownloadMovie dkw r :: rest) ∧
  forallb (λ e, negb (loop_event e)) [download_ev; save_ev] = true ∧
  length (List.filter is_download
    (before_complete ++ EvGetMovieStatus poll_kw (Reply (st 2)) :: [download_ev; save_ev])) = 1.
Proof.
  apply (complete_status_fetches_once w_complete example_args 4
           (Returned (mkPath "42_2024-01-01_2024-01-02.mp4"))
           before_complete poll_kw (st 2) [download_ev; save_ev] (SInt 2));
    reflexivity.
Defined.

Lemma submit_error_raises_before_polling_witness :
  run w_rejected example_args 7 =
    (Raised (RuntimeError (SStr "Invalid layer string")),
     [EvQueueMovie (input_params example_args) (Reply rejection)]).
Proof.
  apply (submit_error_raises_before_polling w_rejected example_args 7 rejection
           "Invalid layer string"); [reflexivity | reflexivity | discriminate].
Defined.


(** C6, counterexample to the claim as stated: the submit reply has a
    token, and the call of [downloadMovie] does not carry it. *)
Lemma fetch_request_carries_no_token :
  run w_quick example_args 1 =
    (Returned (mkPath "42_2024-01-01_2024-01-02.mp4"),
     [submit_ev; EvTime 100%Z; poll_ev (st 2); download_ev; save_ev]) ∧
  handle !! "token" = Some (SStr "tok") ∧
  download_kwargs (F:=Z) example_args (SStr "42") !! "token" = None.
Proof. repeat split; reflexivity. Qed.

Lemma fetch_request_is_id_format_hq_witness :
  ∃ res id rest,
    complete_run = EvQueueMovie (input_params example_args) (Reply res) :: rest ∧
    res !! "id" = Some id ∧
    download_kwargs example_args (SStr "42")
      = <["id" := VScalar id]> (<["format" := vstr (format example_args)]>
           (<["hq" := vbool (hq example_args)]> ∅)) ∧
    download_kwargs (F:=Z) example_args (SStr "42") !! "token" = None.
Proof.
  apply (fetch_request_is_id_format_hq w_complete example_args 4
           (Returned (mkPath "42_2024-01-01_2024-01-02.mp4")) complete_run
           (download_kwargs example_args (SStr "42")) (Reply movie));
    [reflexivity | do 11 right; left; reflexivity].
Defined.

Lemma unknown_status_polls_again_witness :
  ∃ res t0 pre' t rest,
    before_unknown = EvQueueMovie (input_params example_args) (Reply res) :: EvTime t0 :: pre' ∧
    [EvTime 107%Z; poll_ev (st 2); download_ev; save_ev] = EvTime t :: rest ∧
    (num_gtb t (deadline example_args t0) = false →
       (S (polls_so_far before_unknown) < 4 ∧
        ∃ r' rest', rest = EvGetMovieStatus poll_kw r' :: rest') ∨
       (4 = S (polls_so_far before_unknown) ∧
        Returned (mkPath "42_2024-01-01_2024-01-02.mp4") = OutOfFuel ∧ rest = [])).
Proof.
  apply (unknown_status_polls_again w_complete example_args 4
           (Returned (mkPath "42_2024-01-01_2024-01-02.mp4"))
           before_unknown poll_kw (st 7)
           [EvTime 107%Z; poll_ev (st 2); download_ev; save_ev] (SInt 7));
    reflexivity.
Defined.

Lemma failed_status_reads_error_unguarded_witness :
  ∃ res t0 pre' t,
    [submit_ev; EvTime 100%Z]
      = EvQueueMovie (input_params example_args) (Reply res) :: EvTime t0 :: pre' ∧
    [EvTime 103%Z] = [EvTime t] ∧
    (num_gtb t (deadline example_args t0) = false →
       (∀ msg, st 3 !! "error" = Some msg →
          Raised (A:=Path) (KeyError "error") = Raised (RuntimeError msg)) ∧
       (st 3 !! "error" = None →
          Raised (A:=Path) (KeyError "error") = Raised (KeyError "error"))).
Proof.
  apply (failed_status_reads_error_unguarded w_failed_silent example_args 1
           (Raised (KeyError "error")) [submit_ev; EvTime 100%Z] poll_kw (st 3)
           [EvTime 103%Z] (SInt 3));
    reflexivity.
Defined.

Lemma sleep_exactly_after_status_0_or_1_witness :
  (∀ pre kw status post v,
     complete_run = pre ++ EvGetMovieStatus kw (Reply status) :: post →
     status !! "status" = Some v →
     (py_in v [SInt 0; SInt 1] = true → ∃ rest, post = EvSleep 3 :: rest) ∧
     (py_in v [SInt 0; SInt 1] = false → ∀ s rest, post ≠ EvSleep s :: rest) ∧
     (py_in v [SInt 0; SInt 1; SInt 2; SInt 3] = false →
        ∀ between kw' r' post',
          post = between ++ EvGetMovieStatus kw' r' :: post' →
          forallb (λ e, negb (is_poll e)) between = true →
          ∃ t, between = [EvTime t])) ∧
  (∀ pre s post,
     complete_run = pre ++ EvSleep s :: post →
     s = 3%Z ∧
     ∃ pre0 kw status v,
       pre = pre0 ++ [EvGetMovieStatus kw (Reply status)] ∧
       status !! "status" = Some v ∧ py_in v [SInt 0; SInt 1] = true).
Proof.
  apply (sleep_exactly_after_status_0_or_1 w_complete example_args 4
           (Returned (mkPath "42_2024-01-01_2024-01-02.mp4")) complete_run);
    reflexivity.
Defined.

(** ** Concrete runs for the further properties *)

Example run_unreachable :
  run w_unreachable example_args 3 =
    (Raised unreachable, [EvQueueMovie (input_params example_args) (Throws unreachable)]).
Proof. reflexivity. Qed.

Example run_status_down :
  run w_status_down example_args 2 =
    (Raised refused,
     [submit_ev; EvTime 100%Z; poll_ev (st 0); EvSleep 3; EvTime 103%Z;
      EvGetMovieStatus poll_kw (Throws refused)]).
Proof. reflexivity. Qed.

Example run_save_fails :
  run w_save_fails example_args 1 =
    (Raised file_exists,
     [submit_ev; EvTime 100%Z; poll_ev (st 2); download_ev;
      EvSaveFile (save_kwargs example_args movie "42_2024-01-01_2024-01-02.mp4")
        (Throws file_exists)]).
Proof. reflexivity. Qed.

(** With [timeout=0] the movie is still fetched when the first status reply
    says it is complete. *)
Example run_impatient :
  (run w_quick impatient_args 1).1 = Returned (mkPath "42_2024-01-01_2024-01-02.mp4").
Proof. reflexivity. Qed.

Lemma run_follows_protocol_witness :
  ∃ r dl df,
    complete_run = EvQueueMovie (input_params example_args) r :: dl ++ df ∧
    forallb loop_event dl = true ∧
    (df = [] ∨
     (∃ kw e, df = [EvDownloadMovie kw (Throws e)]) ∨
     (∃ kw data skw sr, df = [EvDownloadMovie kw (Reply data); EvSaveFile skw sr])).
Proof.
  apply (run_follows_protocol w_complete example_args 4
           (Returned (mkPath "42_2024-01-01_2024-01-02.mp4")) complete_run);
    reflexivity.
Defined.

Lemma collaborator_exception_ends_run_witness :
  Raised (A:=Path) not_found = Raised not_found ∧ @nil (event Z) = [].
Proof.
  apply (collaborator_exception_ends_run w_download_fails example_args 1
           (Raised not_found) [submit_ev; EvTime 100%Z; poll_ev (st 2)]
           (EvDownloadMovie (download_kwargs example_args (SStr "42")) (Throws not_found))
           [] not_found);
    reflexivity.
Defined.

Lemma submit_error_is_tested_for_truth_witness :
  (∀ e, blank_error !! "error" = Some e → truthy e = true →
     run w_blank_error example_args 1 =
       (Raised (RuntimeError e), [EvQueueMovie (input_params example_args) (Reply blank_error)])) ∧
  (blank_error !! "error" = None ∨ blank_error !! "error" = Some SNone ∨
   blank_error !! "error" = Some (SStr EmptyString) ∨ blank_error !! "error" = Some (SInt 0) ∨
   blank_error !! "error" = Some (SBool false) →
     ∃ rest,
       (run w_blank_error example_args 1).2 =
         EvQueueMovie (input_params example_args) (Reply blank_error)
           :: EvTime (time_time w_blank_error
                        [EvQueueMovie (input_params example_args) (Reply blank_error)])
           :: rest).
Proof.
  apply (submit_error_is_tested_for_truth w_blank_error example_args 1 blank_error);
    reflexivity.
Defined.

Lemma submit_reply_without_handle_raises_KeyError_witness :
  run w_no_token example_args 1 =
    (Raised (KeyError "token"),
     [EvQueueMovie (input_params example_args) (Reply no_token); EvTime 100%Z]).
Proof.
  apply (submit_reply_without_handle_raises_KeyError w_no_token example_args 1 no_token);
    [reflexivity | reflexivity | lia | right; reflexivity].
Defined.

Lemma status_request_is_id_format_token_witness :
  ∃ res id token rest,
    complete_run = EvQueueMovie (input_params example_args) (Reply res) :: rest ∧
    res !! "id" = Some id ∧ res !! "token" = Some token ∧
    poll_kw = <["id" := VScalar id]> (<["format" := vstr (format example_args)]>
                (<["token" := VScalar token]> ∅)).
Proof.
  apply (status_request_is_id_format_token w_complete example_args 4
           (Returned (mkPath "42_2024-01-01_2024-01-02.mp4")) complete_run
           poll_kw (Reply (st 7)));
    [reflexivity | do 8 right; left; reflexivity].
Defined.

Lemma first_status_call_is_unconditional_witness :
  ∃ r rest,
    (run w_quick impatient_args 1).2 =
      EvQueueMovie (input_params impatient_args) (Reply handle)
        :: EvTime (time_time w_quick [EvQueueMovie (input_params impatient_args) (Reply handle)])
        :: EvGetMovieStatus (status_kwargs impatient_args (SStr "42") (SStr "tok")) r :: rest.
Proof.
  apply (first_status_call_is_unconditional w_quick impatient_args 1 handle
           (SStr "42") (SStr "tok"));
    [reflexivity | reflexivity | reflexivity | reflexivity | lia].
Defined.

Lemma status_reply_without_status_raises_KeyError_witness :
  Raised (A:=Path) (KeyError "status") = Raised (KeyError "status") ∧ @nil (event Z) = [].
Proof.
  apply (status_reply_without_status_raises_KeyError w_no_status example_args 1
           (Raised (KeyError "status")) [submit_ev; EvTime 100%Z] poll_kw ∅ []);
    reflexivity.
Defined.

Lemma pending_job_is_polled_without_bound_witness :
  ∃ tr,
    run w_pending example_args 5 = (OutOfFuel, tr) ∧
    polls_so_far tr = 5 ∧
    forallb (λ e, negb (fetch_event e)) tr = true.
Proof.
  apply (pending_job_is_polled_without_bound w_pending example_args handle
           (SStr "42") (SStr "tok") 5);
    [reflexivity | reflexivity | reflexivity | reflexivity
    | intros h kw; exists (st 0), (SInt 0); repeat split; reflexivity
    | intros h; reflexivity].
Defined.

Lemma download_only_after_complete_witness :
  ∃ pre0 pkw status v,
    before_complete ++ [poll_ev (st 2)] = pre0 ++ [EvGetMovieStatus pkw (Reply status)] ∧
    status !! "status" = Some v ∧ py_eq v (SInt 2) = true.
Proof.
  apply (download_only_after_complete w_complete example_args 4
           (Returned (mkPath "42_2024-01-01_2024-01-02.mp4"))
           (before_complete ++ [poll_ev (st 2)])
           (download_kwargs example_args (SStr "42")) (Reply movie) [save_ev]);
    reflexivity.
Defined.

Lemma save_file_gets_downloaded_bytes_witness :
  ∃ res id data pre0,
    res !! "id" = Some id ∧
    before_complete ++ [poll_ev (st 2); download_ev]
      = EvQueueMovie (input_params example_args) (Reply res)
          :: pre0 ++ [EvDownloadMovie (download_kwargs example_args id) (Reply data)] ∧
    save_kwargs example_args movie "42_2024-01-01_2024-01-02.mp4"
      = <["data" := VBytes data]> (<["filename" := vstr (saved_name example_args id)]>
          (<["overwrite" := vbool (overwrite example_args)]> ∅)) ∧
    @nil (event Z) = [].
Proof.
  apply (save_file_gets_downloaded_bytes w_complete example_args 4
           (Returned (mkPath "42_2024-01-01_2024-01-02.mp4"))
           (before_complete ++ [poll_ev (st 2); download_ev])
           (save_kwargs example_args movie "42_2024-01-01_2024-01-02.mp4") (Reply ()) []);
    reflexivity.
Defined.

Lemma pending_status_sleeps_then_polls_again_witness :
  ∃ res t0 pre' rest,
    let t := time_time w_complete
               ([submit_ev; EvTime 100%Z] ++ [EvGetMovieStatus poll_kw (Reply (st 0)); EvSleep 3]) in
    [submit_ev; EvTime 100%Z]
      = EvQueueMovie (input_params example_args) (Reply res) :: EvTime t0 :: pre' ∧
    [EvSleep 3; EvTime 103%Z;
     poll_ev (st 1); EvSleep 3; EvTime 106%Z;
     poll_ev (st 7); EvTime 107%Z;
     poll_ev (st 2); download_ev; save_ev] = EvSleep 3 :: EvTime t :: rest ∧
    (num_gtb t (deadline example_args t0) = false →
       (S (polls_so_far [submit_ev; EvTime 100%Z]) < 4 ∧
        ∃ r' rest', rest = EvGetMovieStatus poll_kw r' :: rest') ∨
       (4 = S (polls_so_far [submit_ev; EvTime 100%Z]) ∧
        Returned (mkPath "42_2024-01-01_2024-01-02.mp4") = OutOfFuel ∧ rest = [])).
Proof.
  apply (pending_status_sleeps_then_polls_again w_complete example_args 4
           (Returned (mkPath "42_2024-01-01_2024-01-02.mp4"))
           [submit_ev; EvTime 100%Z] poll_kw (st 0)
           [EvSleep 3; EvTime 103%Z;
            poll_ev (st 1); EvSleep 3; EvTime 106%Z;
            poll_ev (st 7); EvTime 107%Z;
            poll_ev (st 2); download_ev; save_ev] (SInt 0));
    reflexivity.
Defined.

Lemma returns_only_after_complete_witness :
  ∃ pre kw status v dkw data skw,
    complete_run = pre ++ [EvGetMovieStatus kw (Reply status);
                           EvDownloadMovie dkw (Reply data); EvSaveFile skw (Reply ())] ∧
    status !! "status" = Some v ∧ py_eq v (SInt 2) = true.
Proof.
  apply (returns_only_after_complete w_complete example_args 4
           (mkPath "42_2024-01-01_2024-01-02.mp4") complete_run);
    reflexivity.
Defined.
